(** * The worker supervisor of claude-mem: [ProcessManager]

    A shallow embedding of [src/services/process/ProcessManager.ts] and the
    properties its specification states about it.

    The supervisor is a set of static methods that talk to three things
    outside the program: the data directory (two small JSON files,
    [worker.pid] and [worker.lock]), the operating system's process table
    ([process.kill]) and the clock ([Date.now]).  The embedding passes
    these around as an explicit [World]; what the JavaScript runtime and
    the other processes do is an [Env] of oracles, about which nothing is
    assumed unless a theorem says so.

    What the embedding takes for granted:
    - a stretch of synchronous code runs in one [World]: the clock, the
      files and the process table move only where the code waits for a
      timer or the network, or calls out to signal or spawn a process,
      and they move as the [Env] says; where [start] is suspended on one
      of the supervisor's own methods they move as the other processes
      make them ([start_with]), and [start] is the case where there are
      none;
    - the file system does what it is asked: a read fails only on a
      missing file, an exclusive create only on an existing one, and
      writes and unlinks of the supervisor's own files go through;
      directories are not modelled;
    - numbers are integers (pids, ports, milliseconds since the epoch);
    - [Date.now] is read off a clock that a loop may outwait or not: the
      two [while] loops carry fuel, and that they end is a theorem about
      clocks that move. *)

From Stdlib Require Import ZArith Lia Bool Ascii String List.
From stdpp Require Import base option gmap strings pretty.
Import ListNotations.

Local Open Scope string_scope.
Local Open Scope Z_scope.

(** ** JSON values and the JavaScript operations applied to them *)

(** The numbers the supervisor deals in are integers. *)
#[warnings="-register-all"]
Inductive json : Type :=
| JNull
| JBool (b : bool)
| JNum (n : Z)
| JStr (s : string)
| JArr (items : list json)
| JObj (fields : list (string * json)).

(** A JavaScript value as the code meets it: [None] is [undefined]. *)
Definition value : Type := option json.

Fixpoint assoc (k : string) (fields : list (string * json)) : value :=
  match fields with
  | [] => None
  | (k', v) :: rest => if String.eqb k k' then Some v else assoc k rest
  end.

(** [v.k].  The outer [None] is the [TypeError] of reading a property of
    [null]; numbers, booleans, strings and arrays have none of the
    properties the supervisor reads, so the read gives [undefined]. *)
Definition member (v : json) (k : string) : option value :=
  match v with
  | JNull => None
  | JObj fields => Some (assoc k fields)
  | _ => Some None
  end.

(** [typeof v === 'number'] *)
Definition is_number (v : value) : bool :=
  match v with
  | Some (JNum _) => true
  | _ => false
  end.

(** [v === n] for a number [n] *)
Definition strict_eq_num (v : value) (n : Z) : bool :=
  match v with
  | Some (JNum m) => m =? n
  | _ => false
  end.

(** Numbers that may be [NaN] ([None]): subtraction and [>]. *)
Definition js_sub (a b : option Z) : option Z :=
  match a, b with
  | Some x, Some y => Some (x - y)
  | _, _ => None
  end.

Definition js_gt (a : option Z) (b : Z) : bool :=
  match a with
  | Some x => x >? b
  | None => false
  end.

(** ** Files

    A file is known by what [JSON.parse] makes of its text: a syntax error
    or a value.  [JSON.stringify] of a value is a text that parses back to
    it. *)

Inductive content : Type :=
| Unparsable (text : string)
| Parsed (v : json).

Definition JSON_parse (c : content) : option json :=
  match c with
  | Unparsable _ => None
  | Parsed v => Some v
  end.

Definition JSON_stringify (v : json) : content := Parsed v.

(** ** The world outside the program *)

Record World : Type := mkWorld {
  clock : Z;                       (* what Date.now() returns *)
  files : gmap string content;     (* path -> file *)
  alive : Z -> bool                (* process.kill(pid, 0) returns *)
}.

Definition existsSync (path : string) (w : World) : bool :=
  bool_decide (is_Some (files w !! path)).

Definition readFileSync (path : string) (w : World) : option content :=
  files w !! path.

Definition writeFileSync (path : string) (c : content) (w : World) : World :=
  mkWorld (clock w) (<[path := c]> (files w)) (alive w).

Definition unlinkSync (path : string) (w : World) : World :=
  mkWorld (clock w) (delete path (files w)) (alive w).

(** What [await fetch(url, { signal })] comes to. *)
Inductive Response : Type :=
| Answered (status : Z)            (* the promise resolved with a response *)
| Rejected.                        (* connection refused, or the attempt timed out *)

(** [response.ok], and a rejected promise is not a response. *)
Definition response_ok (r : Response) : bool :=
  match r with
  | Answered status => (200 <=? status) && (status <=? 299)
  | Rejected => false
  end.

Inductive Signal : Type := SIGTERM | SIGKILL.

Record SpawnSyncResult : Type := mkSpawnSync {
  ps_status : option Z;
  ps_stdout : string;
  ps_stderr : option string
}.

(** What the runtime and the rest of the machine do.  The [World -> World]
    parts say how the clock, the files and the process table have moved
    when the call comes back; an outer [inl msg] is an exception thrown
    with that message. *)
Record Env : Type := mkEnv {
  (* ToNumber of a string, array or object; None is NaN *)
  ToNumber_object : json -> option Z;
  (* new Date(v).getTime(); None is NaN *)
  Date_getTime : value -> option Z;
  (* new Date(ms).toISOString() *)
  toISOString : Z -> string;
  (* getBunPath() of utils/bun-path.js; None is null *)
  getBunPath : option string;
  (* await new Promise(resolve => setTimeout(resolve, ms)) *)
  setTimeout : Z -> World -> World;
  (* await fetch(url, { signal: AbortSignal.timeout(...) }) *)
  fetch : string -> World -> Response * World;
  (* spawn(bunPath, [script], { detached, env: { CLAUDE_MEM_WORKER_PORT } }):
     child.pid, undefined when the spawn failed *)
  spawn : string -> string -> Z -> World -> (string + option Z) * World;
  (* spawnSync('powershell', ['-Command', psCommand], ...) *)
  spawnSync : string -> World -> (string + SpawnSyncResult) * World;
  (* process.kill(pid, signal): true when it returns, false when it throws *)
  kill : Z -> Signal -> World -> bool * World;
  (* execSync(`taskkill /PID ${pid} /T /F`), whose failure stop ignores *)
  taskkill : Z -> World -> World
}.

(** The calling process. *)
Record Proc : Type := mkProc {
  process_pid : Z;
  win32 : bool;                          (* process.platform === 'win32' *)
  DATA_DIR : string;                     (* shared/paths.js *)
  homedir : string;
  npm_package_version : option string
}.

(** [path.join] of two segments that need no normalising (no empty, [.]
    or [..] segment, no slash at either end of the seam), where it is
    the two put together with a separator. *)
Definition join (a b : string) : string := a +:+ "/" +:+ b.

(** Timeout constants *)
Definition PROCESS_STOP_TIMEOUT_MS : Z := 5000.
Definition HEALTH_CHECK_TIMEOUT_MS : Z := 10000.
Definition HEALTH_CHECK_INTERVAL_MS : Z := 200.
Definition PROCESS_EXIT_CHECK_INTERVAL_MS : Z := 100.
Definition LOCK_STALE_TIMEOUT_MS : Z := 30000.
Definition LOCK_RETRY_INTERVAL_MS : Z := 100.
Definition LOCK_MAX_RETRIES : nat := 50.

(** ** Results *)

Module PidInfo.
Record t : Type := mk {
  pid : Z;
  port : Z;
  startedAt : value;
  version : value
}.
End PidInfo.
Abbreviation PidInfo := PidInfo.t.

Module LaunchResult.
Record t : Type := mk {
  success : bool;
  pid : option Z;
  error : option string
}.
End LaunchResult.
Abbreviation LaunchResult := LaunchResult.t.

(** [{ success: true, pid }] and [{ success: false, error }] *)
Definition succeeded (pid : option Z) : LaunchResult :=
  LaunchResult.mk true pid None.

Definition failure (msg : string) : LaunchResult :=
  LaunchResult.mk false None (Some msg).

Module Status.
Record t : Type := mk {
  running : bool;
  pid : option Z;
  port : option Z;
  uptime : option string
}.
End Status.

(** A computation on the world that may still be looping when the model's
    fuel runs out ([None]). *)
Definition M (A : Type) : Type := World -> option (A * World).

(** A key of an object literal, left out by [JSON.stringify] when the
    value is [undefined]. *)
Definition own_property (k : string) (v : value) : list (string * json) :=
  match v with
  | Some x => [(k, x)]
  | None => []
  end.

Definition nl : string := String (ascii_of_nat 10) EmptyString.

(** [a || d] on strings: the empty string and [undefined] are falsy. *)
Definition or_else (a : option string) (d : string) : string :=
  match a with
  | Some (String c rest) => String c rest
  | _ => d
  end.

(** White space as [trim] and [parseInt] skip it (the ASCII part). *)
Definition is_space (c : ascii) : bool :=
  let n := Z.of_N (N_of_ascii c) in
  ((9 <=? n) && (n <=? 13)) || (n =? 32).

Fixpoint trimStart (s : string) : string :=
  match s with
  | String c rest => if is_space c then trimStart rest else s
  | EmptyString => EmptyString
  end.

Fixpoint trimEnd (s : string) : string :=
  match s with
  | String c rest =>
      match trimEnd rest with
      | EmptyString => if is_space c then EmptyString else String c EmptyString
      | rest' => String c rest'
      end
  | EmptyString => EmptyString
  end.

Definition trim (s : string) : string := trimEnd (trimStart s).

Definition digit_of (c : ascii) : option Z :=
  let n := Z.of_N (N_of_ascii c) in
  if (48 <=? n) && (n <=? 57) then Some (n - 48) else None.

(** The longest prefix of decimal digits, [acc] being the digits read so
    far; [None] when there is none. *)
Fixpoint leading_digits (acc : option Z) (s : string) : option Z :=
  match s with
  | String c rest =>
      match digit_of c with
      | Some d => leading_digits (Some (10 * default 0 acc + d)) rest
      | None => acc
      end
  | EmptyString => acc
  end.

(** [parseInt(s, 10)]; [None] is [NaN]. *)
Definition parseInt (s : string) : option Z :=
  match trimStart s with
  | String "-" rest => Z.opp <$> leading_digits None rest
  | String "+" rest => leading_digits None rest
  | rest => leading_digits None rest
  end.

(** [s.slice(0, n)] *)
Definition slice0 (n : nat) (s : string) : string := String.substring 0 n s.

(** Escapes a string for use inside PowerShell single quotes: the single
    quote is doubled. *)
Fixpoint escapePowerShellString (str : string) : string :=
  match str with
  | String c rest =>
      if Ascii.eqb c "'" then String "'" (String "'" (escapePowerShellString rest))
      else String c (escapePowerShellString rest)
  | EmptyString => EmptyString
  end.

Section Supervisor.

Variable E : Env.
Variable P : Proc.

Definition PID_FILE : string := join (DATA_DIR P) "worker.pid".
Definition LOCK_FILE : string := join (DATA_DIR P) "worker.lock".
Definition LOG_DIR : string := join (DATA_DIR P) "logs".
Definition MARKETPLACE_ROOT : string :=
  join (join (join (join (homedir P) ".claude") "plugins") "marketplaces") "thedotmack".

(** [ToNumber]: the primitives by the language's table, the rest by the
    runtime. *)
Definition ToNumber (v : value) : option Z :=
  match v with
  | None => None
  | Some JNull => Some 0
  | Some (JBool b) => Some (if b then 1 else 0)
  | Some (JNum n) => Some n
  | Some o => ToNumber_object E o
  end.

(** [process.kill(target, 0)] returns ([true]) or throws ([false]).  Node
    rejects [undefined] and [null] outright and a value that is not a
    number when coerced; for a number it asks the system. *)
Definition process_kill0 (target : value) (w : World) : bool :=
  match target with
  | None | Some JNull => false
  | _ => match ToNumber target with
         | Some n => alive w n
         | None => false
         end
  end.

(** *** Lock manager *)

(** Cleans up stale locks from crashed processes.  The [try] block is in
    the option monad: [None] is an exception, caught by the outer [catch],
    which removes the file. *)
Definition cleanStaleLock (w : World) : World :=
  if negb (existsSync LOCK_FILE w) then w
  else
    let try :=
      c ← readFileSync LOCK_FILE w;
      lockInfo ← JSON_parse c;
      timestamp ← member lockInfo "timestamp";
      if js_gt (js_sub (Some (clock w)) (ToNumber timestamp)) LOCK_STALE_TIMEOUT_MS
      then Some (unlinkSync LOCK_FILE w)
      else
        owner ← member lockInfo "pid";
        Some (if process_kill0 owner w then w else unlinkSync LOCK_FILE w) in
    default (unlinkSync LOCK_FILE w) try.

(** [openSync] with [O_CREAT | O_EXCL] fails when the file is there;
    otherwise the file is created and the token written into it.
    ([mkdirSync]: directories are not part of [files].) *)
Definition tryAcquireLock (w : World) : bool * World :=
  let w1 := cleanStaleLock w in
  if existsSync LOCK_FILE w1 then (false, w1)
  else
    let lockInfo :=
      JObj [("pid", JNum (process_pid P)); ("timestamp", JNum (clock w1))] in
    (true, writeFileSync LOCK_FILE (JSON_stringify lockInfo) w1).

(** Releases the lock file if we own it. *)
Definition releaseLock (w : World) : World :=
  let try :=
    c ← readFileSync LOCK_FILE w;
    lockInfo ← JSON_parse c;
    owner ← member lockInfo "pid";
    Some (if strict_eq_num owner (process_pid P)
          then unlinkSync LOCK_FILE w else w) in
  default w try.

(** Waits to acquire the lock with retries: [n] attempts are left. *)
Fixpoint acquireLockWithRetry_from (n : nat) (w : World) : bool * World :=
  match n with
  | O => (false, w)
  | S n' =>
      let '(acquired, w1) := tryAcquireLock w in
      if acquired then (true, w1)
      else acquireLockWithRetry_from n' (setTimeout E LOCK_RETRY_INTERVAL_MS w1)
  end.

Definition acquireLockWithRetry : World -> bool * World :=
  acquireLockWithRetry_from LOCK_MAX_RETRIES.

(** *** Lifecycle state store *)

Definition PidInfo_to_json (info : PidInfo) : json :=
  JObj ([("pid", JNum (PidInfo.pid info)); ("port", JNum (PidInfo.port info))]
        ++ own_property "startedAt" (PidInfo.startedAt info)
        ++ own_property "version" (PidInfo.version info)).

Definition getPidInfo (w : World) : option PidInfo :=
  if negb (existsSync PID_FILE w) then None
  else
    c ← readFileSync PID_FILE w;
    parsed ← JSON_parse c;
    pid ← member parsed "pid";
    port ← member parsed "port";
    match pid, port with
    | Some (JNum pid), Some (JNum port) =>
        startedAt ← member parsed "startedAt";
        version ← member parsed "version";
        Some (PidInfo.mk pid port startedAt version)
    | _, _ => None
    end.

Definition writePidFile (info : PidInfo) (w : World) : World :=
  writeFileSync PID_FILE (JSON_stringify (PidInfo_to_json info)) w.

Definition removePidFile (w : World) : World :=
  if existsSync PID_FILE w then unlinkSync PID_FILE w else w.

Definition isProcessAlive (pid : Z) (w : World) : bool := alive w pid.

Definition formatUptime (startedAt : value) (w : World) : string :=
  match js_sub (Some (clock w)) (Date_getTime E startedAt) with
  | None => "NaNs"
  | Some diffMs =>
      let seconds := diffMs / 1000 in
      let minutes := seconds / 60 in
      let hours := minutes / 60 in
      let days := hours / 24 in
      if days >? 0 then pretty days +:+ "d " +:+ pretty (Z.rem hours 24) +:+ "h"
      else if hours >? 0 then pretty hours +:+ "h " +:+ pretty (Z.rem minutes 60) +:+ "m"
      else if minutes >? 0 then pretty minutes +:+ "m " +:+ pretty (Z.rem seconds 60) +:+ "s"
      else pretty seconds +:+ "s"
  end.

(** *** Health prober *)

Definition troubleshooting (port : Z) : string :=
  nl +:+ nl +:+ "Troubleshooting:" +:+ nl
  +:+ "1. Check Task Manager for zombie 'bun.exe' or 'node.exe' processes" +:+ nl
  +:+ "2. Verify port " +:+ pretty port +:+ " is not in use: netstat -ano | findstr "
  +:+ pretty port +:+ nl
  +:+ "3. Check worker logs in ~/.claude-mem/logs/" +:+ nl
  +:+ "4. See GitHub issues: #363, #367, #371, #373" +:+ nl
  +:+ "5. Docs: https://docs.claude-mem.ai/troubleshooting/windows-issues".

Definition died_message (port : Z) : string :=
  if win32 P then "Process died during startup" +:+ troubleshooting port
  else "Process died during startup".

Definition timeout_message (port adjustedTimeout : Z) : string :=
  if win32 P
  then "Worker failed to start on Windows (readiness check timed out after "
       +:+ pretty adjustedTimeout +:+ "ms)" +:+ troubleshooting port
  else "Readiness check timed out after " +:+ pretty adjustedTimeout +:+ "ms".

Definition readiness_url (port : Z) : string :=
  "http://127.0.0.1:" +:+ pretty port +:+ "/api/readiness".

Definition adjustedTimeout (timeoutMs : Z) : Z :=
  if win32 P then timeoutMs * 2 else timeoutMs.

(** The [while] loop of [waitForHealth]; [fuel] bounds the number of
    iterations the model follows, and [None] is a loop still running when
    it is used up. *)
Fixpoint waitForHealth_loop (fuel : nat) (startTime pid port timeoutMs : Z)
    : M LaunchResult := fun w =>
  match fuel with
  | O => None
  | S fuel' =>
      if clock w - startTime <? adjustedTimeout timeoutMs then
        if negb (isProcessAlive pid w) then Some (failure (died_message port), w)
        else
          let '(response, w1) := fetch E (readiness_url port) w in
          if response_ok response then Some (succeeded (Some pid), w1)
          else
            waitForHealth_loop fuel' startTime pid port timeoutMs
              (setTimeout E HEALTH_CHECK_INTERVAL_MS w1)
      else Some (failure (timeout_message port (adjustedTimeout timeoutMs)), w)
  end.

Definition waitForHealth (fuel : nat) (pid port timeoutMs : Z) : M LaunchResult :=
  fun w => waitForHealth_loop fuel (clock w) pid port timeoutMs w.

(** [waitForExit] returns ([true]) or throws its timeout error ([false]). *)
Fixpoint waitForExit_loop (fuel : nat) (startTime pid timeout : Z) : M bool := fun w =>
  match fuel with
  | O => None
  | S fuel' =>
      if clock w - startTime <? timeout then
        if negb (isProcessAlive pid w) then Some (true, w)
        else
          waitForExit_loop fuel' startTime pid timeout
            (setTimeout E PROCESS_EXIT_CHECK_INTERVAL_MS w)
      else Some (false, w)
  end.

Definition waitForExit (fuel : nat) (pid timeout : Z) : M bool :=
  fun w => waitForExit_loop fuel (clock w) pid timeout w.

(** *** Process launcher *)

Definition getLogFilePath (w : World) : string :=
  let date := slice0 10 (toISOString E (clock w)) in
  join LOG_DIR ("worker-" +:+ date +:+ ".log").

Definition new_PidInfo (pid port : Z) (w : World) : PidInfo :=
  PidInfo.mk pid port
    (Some (JStr (toISOString E (clock w))))
    (Some (JStr (or_else (npm_package_version P) "unknown"))).

Definition psCommand (bunPath script : string) (port : Z) : string :=
  let escapedBunPath := escapePowerShellString bunPath in
  let escapedScript := escapePowerShellString script in
  let escapedWorkDir := escapePowerShellString MARKETPLACE_ROOT in
  let envVars := "$env:CLAUDE_MEM_WORKER_PORT='" +:+ pretty port +:+ "'" in
  envVars +:+ "; Start-Process -FilePath '" +:+ escapedBunPath
  +:+ "' -ArgumentList '" +:+ escapedScript
  +:+ "' -WorkingDirectory '" +:+ escapedWorkDir
  +:+ "' -WindowStyle Hidden -PassThru | Select-Object -ExpandProperty Id".

(** The log stream of the Unix branch is opened from the event loop after
    [startWithBun] has moved on: what it does to the files is part of
    what [spawn] and the later waits report. *)
Definition startWithBun (fuel : nat) (script logFile : string) (port : Z)
    : M LaunchResult := fun w =>
  match getBunPath E with
  | None =>
      Some (failure "Bun is required but not found in PATH or common installation paths. Install from https://bun.sh", w)
  | Some bunPath =>
      if win32 P then
        match spawnSync E (psCommand bunPath script port) w with
        | (inl message, w1) => Some (failure message, w1)
        | (inr result, w1) =>
            if negb (strict_eq_num (JNum <$> ps_status result) 0) then
              Some (failure ("PowerShell spawn failed: "
                             +:+ or_else (ps_stderr result) "unknown error"), w1)
            else
              match parseInt (trim (ps_stdout result)) with
              | None => Some (failure "Failed to get PID from PowerShell", w1)
              | Some pid =>
                  let w2 := writePidFile (new_PidInfo pid port w1) w1 in
                  waitForHealth fuel pid port HEALTH_CHECK_TIMEOUT_MS w2
              end
        end
      else
        match spawn E bunPath script port w with
        | (inl message, w1) => Some (failure message, w1)
        | (inr child_pid, w1) =>
            match child_pid with
            | None | Some 0 =>
                Some (failure "Failed to get PID from spawned process", w1)
            | Some pid =>
                let w2 := writePidFile (new_PidInfo pid port w1) w1 in
                waitForHealth fuel pid port HEALTH_CHECK_TIMEOUT_MS w2
            end
        end
  end.

(** *** Supervisor API *)

Definition isRunning (w : World) : bool * World :=
  match getPidInfo w with
  | None => (false, w)
  | Some info =>
      let alive := isProcessAlive (PidInfo.pid info) w in
      (alive, if negb alive then removePidFile w else w)
  end.

Definition status (w : World) : Status.t * World :=
  match getPidInfo w with
  | None => (Status.mk false None None None, w)
  | Some info =>
      let running := isProcessAlive (PidInfo.pid info) w in
      (Status.mk running
         (if running then Some (PidInfo.pid info) else None)
         (if running then Some (PidInfo.port info) else None)
         (if running then Some (formatUptime (PidInfo.startedAt info) w) else None),
       w)
  end.

(** [{ success: true, pid: info?.pid }] with [info] read again from the
    state file. *)
Definition already_running (w : World) : LaunchResult :=
  succeeded (PidInfo.pid <$> getPidInfo w).

(** [start] is suspended wherever it [await]s one of the supervisor's own
    methods, and the state file is not locked: [others] is what the other
    processes on the machine do to the world during such a suspension.
    (The waits on timers and probes are the oracles of [Env].) *)

(** The [try] block of [start], entered with the lock held. *)
Definition start_try_with (others : World -> World) (fuel : nat) (port : Z)
    : M LaunchResult := fun w =>
  let '(running, w0) := isRunning w in
  let w1 := others w0 in                       (* await this.isRunning() *)
  if running then Some (already_running w1, w1)
  else
    let scriptName :=
      if win32 P then "worker-wrapper.cjs" else "worker-service.cjs" in
    let workerScript :=
      join (join (join MARKETPLACE_ROOT "plugin") "scripts") scriptName in
    if negb (existsSync workerScript w1) then
      Some (failure ("Worker script not found at " +:+ workerScript), w1)
    else
      let logFile := getLogFilePath w1 in
      '(result, w2) ← startWithBun fuel workerScript logFile port w1;
      Some (result, others w2).                (* await this.startWithBun(...) *)

Definition start_with (others : World -> World) (fuel : nat) (port : Z)
    : M LaunchResult := fun w =>
  if (port <? 1024) || (port >? 65535) then
    Some (failure ("Invalid port " +:+ pretty port
                   +:+ ". Must be between 1024 and 65535"), w)
  else
    let '(running, w0) := isRunning w in
    let w1 := others w0 in                     (* await this.isRunning() *)
    if running then Some (already_running w1, w1)
    else
      let '(locked, w1') := acquireLockWithRetry w1 in
      let w2 := others w1' in                  (* await this.acquireLockWithRetry() *)
      if negb locked then
        let w3 := setTimeout E HEALTH_CHECK_TIMEOUT_MS w2 in
        let '(running, w3') := isRunning w3 in
        let w4 := others w3' in                (* await this.isRunning() *)
        if running then Some (already_running w4, w4)
        else Some (failure "Failed to acquire startup lock and worker not running", w4)
      else
        (* try { ... } finally { this.releaseLock() } *)
        '(result, w3) ← start_try_with others fuel port w2;
        Some (result, releaseLock w3).

(** [start] with the machine to itself: nothing happens to the world
    while it is suspended. *)
Definition start_try (fuel : nat) (port : Z) : M LaunchResult :=
  start_try_with (fun w => w) fuel port.

Definition start (fuel : nat) (port : Z) : M LaunchResult :=
  start_with (fun w => w) fuel port.

Definition stop (fuel : nat) (timeout : Z) : M bool := fun w =>
  match getPidInfo w with
  | None => Some (true, w)
  | Some info =>
      let pid := PidInfo.pid info in
      let catch (w : World) : World := snd (kill E pid SIGKILL w) in
      let try : option World :=
        if win32 P then Some (taskkill E pid w)
        else
          let '(delivered, w1) := kill E pid SIGTERM w in
          if delivered then
            match waitForExit fuel pid timeout w1 with
            | Some (exited, w2) => Some (if exited then w2 else catch w2)
            | None => None
            end
          else Some (catch w1) in
      w' ← try;
      Some (true, removePidFile w')
  end.

Definition restart (fuel : nat) (port : Z) : M LaunchResult := fun w =>
  '(_, w1) ← stop fuel PROCESS_STOP_TIMEOUT_MS w;
  start fuel port w1.

End Supervisor.

(** ** Notions of the specification *)

(** [v.k] read without regard for the [TypeError] on [null]. *)
Definition field (v : json) (k : string) : value := default None (member v k).

(** The owner pid a lock file records, if it records one. *)
Definition recorded_owner (c : content) : value :=
  v ← JSON_parse c; field v "pid".

(** The token a process writes when it takes the lock at time [now]. *)
Definition lock_token (P : Proc) (now : Z) : json :=
  JObj [("pid", JNum (process_pid P)); ("timestamp", JNum now)].

(** [typeof v === 'string'] *)
Definition is_string (v : value) : bool :=
  match v with
  | Some (JStr _) => true
  | _ => false
  end.

(** WorkerState as the specification types it:
    [{pid: int, port: int, started_at: timestamp, version: string}]. *)
Definition WorkerState_schema (v : json) : bool :=
  is_number (field v "pid") && is_number (field v "port")
  && is_string (field v "startedAt") && is_string (field v "version").

(** A LaunchResult that is not partially populated. *)
Definition populated (r : LaunchResult) : Prop :=
  (LaunchResult.success r = true -> is_Some (LaunchResult.pid r))
  /\ (LaunchResult.success r = false -> is_Some (LaunchResult.error r)).

(** [needle] occurs somewhere in [hay]. *)
Fixpoint occurs (needle hay : string) : bool :=
  String.prefix needle hay
  || match hay with
     | String _ rest => occurs needle rest
     | EmptyString => false
     end.

(** The error message of [r] names [pid] in decimal. *)
Definition names_pid (pid : Z) (r : LaunchResult) : bool :=
  match LaunchResult.error r with
  | Some msg => occurs (pretty pid) msg
  | None => false
  end.

(** The clock as timers see it: a sleep of [ms] ends no sooner than [ms]
    later, and time does not run backwards while a request is in flight. *)
Definition sleep_advances (E : Env) : Prop :=
  forall ms w, clock w + ms <= clock (setTimeout E ms w).

Definition fetch_keeps_time (E : Env) : Prop :=
  forall url w, clock w <= clock (snd (fetch E url w)).

(** Polls that fit in [timeout] at one per [interval], and the look at the
    clock that ends the loop. *)
Definition rounds (timeout interval : Z) : nat :=
  S (Z.to_nat ((timeout + interval - 1) / interval)).

(** The world at the head of the next iteration of [waitForHealth], after
    a probe that was not a success and the sleep that follows it. *)
Definition next_poll (E : Env) (port : Z) (w : World) : World :=
  setTimeout E HEALTH_CHECK_INTERVAL_MS (snd (fetch E (readiness_url port) w)).

Definition poll_world (E : Env) (port : Z) (k : nat) (w : World) : World :=
  Nat.iter k (next_poll E port) w.

(** An iteration that goes round again: before the deadline, the process
    alive, the probe not a 2xx answer. *)
Definition still_starting (E : Env) (P : Proc) (startTime pid port timeoutMs : Z)
    (w : World) : bool :=
  (clock w - startTime <? adjustedTimeout P timeoutMs)
  && alive w pid
  && negb (response_ok (fst (fetch E (readiness_url port) w))).

(** ** Scenarios: a machine to run the supervisor on *)

Module Scenario.

Definition tick (ms : Z) (w : World) : World :=
  mkWorld (clock w + ms) (files w) (alive w).

(** Nothing listens before [ready_at]; from then on the worker answers
    200.  Signals reach live processes and change nothing. *)
Definition machine (ready_at : Z) : Env :=
  mkEnv (fun _ => None)
        (fun _ => Some 0)
        (fun _ => "2026-01-01T00:00:00.000Z")
        (Some "/usr/local/bin/bun")
        tick
        (fun _ w => (if clock w <? ready_at then Rejected else Answered 200, tick 5 w))
        (fun _ _ _ w => (inr (Some 4242), w))
        (fun _ w => (inl "spawnSync powershell ENOENT", w))
        (fun pid _ w => (alive w pid, w))
        (fun _ w => w).

Definition never_ready : Env := machine (10 ^ 15).

Definition unix : Proc := mkProc 100 false "/home/u/.claude-mem" "/home/u" None.

(** Processes 100, 200 and 4242 run; the data directory holds only the
    worker script. *)
Definition fresh : World :=
  mkWorld 1000000
          {[ "/home/u/.claude/plugins/marketplaces/thedotmack/plugin/scripts/worker-service.cjs"
             := Unparsable "#!/usr/bin/env bun" ]}
          (fun pid => (pid =? 100) || (pid =? 200) || (pid =? 4242)).

Definition state_of (pid : Z) : content :=
  Parsed (JObj [("pid", JNum pid); ("port", JNum 37777);
                ("startedAt", JStr "2026-01-01T00:00:00.000Z");
                ("version", JStr "9.0.0")]).

(** A state file left behind by worker [pid]. *)
Definition with_state (pid : Z) (w : World) : World :=
  writeFileSync (PID_FILE unix) (state_of pid) w.

(** A lock taken by process [owner] at [timestamp]. *)
Definition with_lock (owner timestamp : Z) (w : World) : World :=
  writeFileSync (LOCK_FILE unix)
    (Parsed (JObj [("pid", JNum owner); ("timestamp", JNum timestamp)])) w.

(** A state file whose [startedAt] is a number and whose [version] is a
    boolean. *)
Definition mistyped : World :=
  writeFileSync (PID_FILE unix)
    (Parsed (JObj [("pid", JNum 4242); ("port", JNum 37777);
                   ("startedAt", JNum 5); ("version", JBool true)])) fresh.

(** Worker 999 has gone and left its state file. *)
Definition stale : World := with_state 999 fresh.

(** Worker 4242 runs and its state file says so. *)
Definition running : World := with_state 4242 fresh.

(** Process 100 took the lock a moment ago and is back 100 ms later. *)
Definition just_locked : World :=
  tick 100 (snd (tryAcquireLock never_ready unix fresh)).

(** Process 200, still alive, holds a lock it took 30.001 s ago. *)
Definition old_lock : World := with_lock 200 (1000000 - 30001) fresh.

(** Process 200 holds a lock it took just now. *)
Definition held_by_other : content :=
  Parsed (JObj [("pid", JNum 200); ("timestamp", JNum 1000000)]).

Definition locked_by_other : World := with_lock 200 1000000 fresh.

(** The worker starts answering 300 ms after the launch. *)
Definition ready_soon : Env := machine 1000300.

(** The fresh machine once [start] holds the lock. *)
Definition just_locked_at_start : World :=
  snd (tryAcquireLock ready_soon unix fresh).

End Scenario.

(** ** Further notions *)

(** The doubling of apostrophes (U+0027) undone: two in a row stand for
    one, and one on its own has no reading ([None]). *)
Fixpoint undouble (s : string) : option string :=
  match s with
  | EmptyString => Some EmptyString
  | String c rest =>
      if Ascii.eqb c "'" then
        match rest with
        | String c' rest' =>
            if Ascii.eqb c' "'" then String "'" <$> undouble rest' else None
        | EmptyString => None
        end
      else String c <$> undouble rest
  end.

(** The world after [k] waits of the lock retry loop. *)
Definition lock_wait (E : Env) (k : nat) (w : World) : World :=
  Nat.iter k (setTimeout E LOCK_RETRY_INTERVAL_MS) w.



(** Nobody else touches the lock file while [start] runs. *)
Definition leaves_lock_alone (E : Env) (P : Proc) : Prop :=
  (forall ms w, files (setTimeout E ms w) !! LOCK_FILE P = files w !! LOCK_FILE P)
  /\ (forall url w, files (snd (fetch E url w)) !! LOCK_FILE P = files w !! LOCK_FILE P)
  /\ (forall bun script port w,
        files (snd (spawn E bun script port w)) !! LOCK_FILE P = files w !! LOCK_FILE P)
  /\ (forall command w,
        files (snd (spawnSync E command w)) !! LOCK_FILE P = files w !! LOCK_FILE P).



(** Whatever the other processes do, a state file that could be read can
    still be read: none of them removes or spoils it. *)
Definition keeps_state_readable (P : Proc) (others : World -> World) : Prop :=
  forall w, is_Some (getPidInfo P w) -> is_Some (getPidInfo P (others w)).

(** The message of [start] for a port out of range. *)
Definition invalid_port_message (port : Z) : string :=
  "Invalid port " +:+ pretty port +:+ ". Must be between 1024 and 65535".

(** The script [start] launches: the wrapper on Windows, the worker
    itself elsewhere. *)
Definition worker_script (P : Proc) : string :=
  join (join (join (MARKETPLACE_ROOT P) "plugin") "scripts")
       (if win32 P then "worker-wrapper.cjs" else "worker-service.cjs").

Definition bun_missing_message : string :=
  "Bun is required but not found in PATH or common installation paths. Install from https://bun.sh".

(** The last character of a string. *)
Fixpoint last_ascii (s : string) : option ascii :=
  match s with
  | EmptyString => None
  | String c EmptyString => Some c
  | String _ rest => last_ascii rest
  end.

Module Cases.

Import Scenario.

(** A second process on the same data directory. *)
Definition second : Proc := mkProc 200 false "/home/u/.claude-mem" "/home/u" None.

(** A machine on which Bun is not installed. *)
Definition no_bun : Env :=
  mkEnv (fun _ => None) (fun _ => Some 0) (fun _ => "2026-01-01T00:00:00.000Z")
        None tick (fun _ w => (Rejected, tick 5 w))
        (fun _ _ _ w => (inr (Some 4242), w))
        (fun _ w => (inl "spawnSync powershell ENOENT", w))
        (fun pid _ w => (alive w pid, w))
        (fun _ w => w).


(** A machine on which the plugin was never installed. *)
Definition bare : World := mkWorld 1000000 ∅ (alive fresh).

(** A lock file of process 200 that records no timestamp. *)
Definition undated_lock : World :=
  writeFileSync (LOCK_FILE unix) (Parsed (JObj [("pid", JNum 200)])) fresh.

(** A lock left by process 999, which is gone, a moment ago. *)
Definition orphan_lock : World := with_lock 999 1000000 fresh.

(** A lock file cut short while it was written. *)
Definition torn_lock : World :=
  writeFileSync (LOCK_FILE unix) (Unparsable "{") fresh.

(** Worker 4242 has been up for one day, one hour, one minute and one
    second. *)
Definition long_running : World :=
  mkWorld 90061000 (files running) (alive running).

(** The world [stop] leaves when worker 4242 sits out SIGTERM and the
    5 s wait, and SIGKILL as well. *)
Definition after_stop : World :=
  removePidFile unix (Nat.iter 50 (tick 100) running).

(** The world [start] leaves on the fresh machine: the worker spawned,
    its state written, two probes refused and the third answered, the
    lock released. *)
Definition launched : World :=
  releaseLock unix
    (snd (fetch ready_soon (readiness_url 37777)
       (poll_world ready_soon 37777 2
          (writePidFile unix
             (new_PidInfo ready_soon unix 4242 37777 just_locked_at_start)
             just_locked_at_start)))).

End Cases.

(** * Properties *)

(** ** Files *)

Lemma existsSync_Some path w c :
  files w !! path = Some c -> existsSync path w = true.
Proof.
  intros H. unfold existsSync. apply bool_decide_eq_true. rewrite H. eauto.
Qed.

Lemma existsSync_None path w :
  files w !! path = None -> existsSync path w = false.
Proof.
  intros H. unfold existsSync. apply bool_decide_eq_false. rewrite H.
  intros [c Hc]. discriminate.
Qed.

Lemma files_unlinkSync path w :
  files (unlinkSync path w) !! path = None.
Proof. unfold unlinkSync. simpl. apply lookup_delete_eq. Qed.

Lemma files_writeFileSync path c w :
  files (writeFileSync path c w) !! path = Some c.
Proof. unfold writeFileSync. simpl. apply lookup_insert_eq. Qed.

(** ** Lock manager *)

Section LockManager.

Variable E : Env.
Variable P : Proc.

Local Abbreviation me := (process_pid P).
Local Abbreviation lock := (LOCK_FILE P).
Local Abbreviation token := (lock_token P).

Lemma cleanStaleLock_absent w :
  files w !! lock = None -> cleanStaleLock E P w = w.
Proof.
  intros H. unfold cleanStaleLock. by rewrite (existsSync_None _ _ H).
Qed.

(** A lock past the stale threshold is removed, whoever owns it. *)
Lemma cleanStaleLock_old w v ts :
  files w !! lock = Some (Parsed v) ->
  member v "timestamp" = Some (Some (JNum ts)) ->
  clock w - ts > LOCK_STALE_TIMEOUT_MS ->
  cleanStaleLock E P w = unlinkSync lock w.
Proof.
  intros Hf Hts Hage. unfold cleanStaleLock, readFileSync.
  rewrite (existsSync_Some _ _ _ Hf), Hf. simpl. rewrite Hts. simpl.
  replace (clock w - ts >? LOCK_STALE_TIMEOUT_MS) with true; [reflexivity|].
  symmetry. apply Z.gtb_lt. lia.
Qed.

(** A fresh lock of a live owner is kept. *)
Lemma cleanStaleLock_valid w v ts owner :
  files w !! lock = Some (Parsed v) ->
  member v "timestamp" = Some (Some (JNum ts)) ->
  member v "pid" = Some (Some (JNum owner)) ->
  clock w - ts <= LOCK_STALE_TIMEOUT_MS ->
  alive w owner = true ->
  cleanStaleLock E P w = w.
Proof.
  intros Hf Hts Hpid Hage Halive. unfold cleanStaleLock, readFileSync.
  rewrite (existsSync_Some _ _ _ Hf), Hf. simpl. rewrite Hts. simpl.
  replace (clock w - ts >? LOCK_STALE_TIMEOUT_MS) with false.
  - rewrite Hpid. simpl. rewrite Halive. reflexivity.
  - symmetry. rewrite Z.gtb_ltb. apply Z.ltb_ge. lia.
Qed.

Lemma tryAcquireLock_free w :
  files w !! lock = None ->
  tryAcquireLock E P w
  = (true, writeFileSync lock (Parsed (token (clock w))) w).
Proof.
  intros H. unfold tryAcquireLock. rewrite (cleanStaleLock_absent _ H).
  rewrite (existsSync_None _ _ H). reflexivity.
Qed.

(** C2: starting with no lock file, a first [tryAcquireLock] returns true
    and writes the caller's token; a second call by the same caller, made
    while that token is still in place, not older than the stale
    threshold, and the caller alive, returns false and changes nothing. *)
Theorem tryAcquireLock_twice (w w2 : World) :
  files w !! lock = None ->
  files w2 !! lock = files (snd (tryAcquireLock E P w)) !! lock ->
  clock w2 - clock w <= LOCK_STALE_TIMEOUT_MS ->
  alive w2 me = true ->
  fst (tryAcquireLock E P w) = true
  /\ tryAcquireLock E P w2 = (false, w2).
Proof.
  intros Hfree Hsame Hfresh Halive.
  rewrite (tryAcquireLock_free _ Hfree) in *. cbn [fst snd] in *.
  split; [reflexivity|].
  rewrite files_writeFileSync in Hsame.
  unfold tryAcquireLock.
  rewrite (cleanStaleLock_valid w2 (token (clock w)) (clock w) me Hsame);
    try reflexivity; try assumption.
  rewrite (existsSync_Some _ _ _ Hsame). reflexivity.
Qed.

Lemma tryAcquireLock_old w v ts :
  files w !! lock = Some (Parsed v) ->
  member v "timestamp" = Some (Some (JNum ts)) ->
  clock w - ts > LOCK_STALE_TIMEOUT_MS ->
  tryAcquireLock E P w
  = (true, writeFileSync lock (Parsed (token (clock w))) (unlinkSync lock w)).
Proof.
  intros Hf Hts Hage. unfold tryAcquireLock.
  rewrite (cleanStaleLock_old w v ts Hf Hts Hage).
  by rewrite (existsSync_None _ _ (files_unlinkSync lock w)).
Qed.

(** C3: a lock token older than the stale threshold is removed by
    [tryAcquireLock], which then takes the lock for the caller and returns
    true.  Nothing is asked of the process table: the owner may be alive. *)
Theorem tryAcquireLock_reclaims_old (w : World) (v : json) (ts : Z) :
  files w !! lock = Some (Parsed v) ->
  member v "timestamp" = Some (Some (JNum ts)) ->
  clock w - ts > LOCK_STALE_TIMEOUT_MS ->
  fst (tryAcquireLock E P w) = true
  /\ files (snd (tryAcquireLock E P w)) !! lock = Some (Parsed (token (clock w)))
  /\ cleanStaleLock E P w = unlinkSync lock w.
Proof.
  intros Hf Hts Hage.
  rewrite (tryAcquireLock_old w v ts Hf Hts Hage). cbn [fst snd].
  split; [reflexivity|]. split; [apply files_writeFileSync|].
  by apply (cleanStaleLock_old w v ts).
Qed.

Lemma releaseLock_cases w :
  releaseLock P w = w \/
  (exists c, files w !! lock = Some c
             /\ recorded_owner c = Some (JNum me)
             /\ releaseLock P w = unlinkSync lock w).
Proof.
  unfold releaseLock, readFileSync.
  destruct (files w !! lock) as [c|] eqn:Hf; [|by left].
  destruct c as [t|v]; simpl; [by left|].
  unfold recorded_owner, field. simpl.
  destruct (member v "pid") as [[[| | n | | |]|]|] eqn:Hm; simpl; try (by left).
  destruct (Z.eqb_spec n me) as [->|]; [|by left].
  right. exists (Parsed v). simpl. rewrite Hm. auto.
Qed.

(** C4: when the owner pid the lock file records is not the caller's own,
    [releaseLock] changes nothing, so the file stays as it was; the file
    goes away only when the recorded owner is the caller. *)
Theorem releaseLock_only_by_owner (w : World) (c : content) :
  files w !! lock = Some c ->
  (recorded_owner c <> Some (JNum me) ->
     releaseLock P w = w /\ files (releaseLock P w) !! lock = Some c)
  /\ (files (releaseLock P w) !! lock <> Some c -> recorded_owner c = Some (JNum me))
  /\ (recorded_owner c = Some (JNum me) -> files (releaseLock P w) !! lock = None).
Proof.
  intros Hf.
  destruct (releaseLock_cases w) as [Hsame | (c' & Hf' & Hown & Hrm)].
  - rewrite Hsame. repeat split; try congruence.
    intros Hown. revert Hsame. unfold releaseLock, readFileSync.
    rewrite Hf. unfold recorded_owner, field in Hown.
    destruct c as [t|v]; simpl in *; [discriminate|].
    destruct (member v "pid") as [o|]; simpl in *; [|discriminate].
    subst o. simpl. rewrite Z.eqb_refl.
    intros Heq. rewrite <- Heq, files_unlinkSync in Hf. discriminate.
  - assert (c' = c) by congruence. subst c'.
    rewrite Hrm, files_unlinkSync. repeat split; try congruence.
Qed.

End LockManager.

(** A second call that comes after the stale threshold finds the caller's
    own token too old, removes it and takes the lock again. *)
Remark tryAcquireLock_twice_late (E : Env) (P : Proc) (w w2 : World) :
  files w !! LOCK_FILE P = None ->
  files w2 !! LOCK_FILE P = files (snd (tryAcquireLock E P w)) !! LOCK_FILE P ->
  clock w2 - clock w > LOCK_STALE_TIMEOUT_MS ->
  fst (tryAcquireLock E P w2) = true.
Proof.
  intros Hfree Hsame Hlate.
  rewrite (tryAcquireLock_free E P _ Hfree) in Hsame. cbn [snd] in Hsame.
  rewrite files_writeFileSync in Hsame.
  by rewrite (tryAcquireLock_old E P w2 _ (clock w) Hsame).
Qed.

(** ** Lifecycle state store *)

Section StateStore.

Variable P : Proc.

(** What [getPidInfo] returns for a file that parses to [v]. *)
Lemma getPidInfo_Parsed w v :
  files w !! PID_FILE P = Some (Parsed v) ->
  getPidInfo P w =
    match field v "pid", field v "port" with
    | Some (JNum pid), Some (JNum port) =>
        Some (PidInfo.mk pid port (field v "startedAt") (field v "version"))
    | _, _ => None
    end.
Proof.
  intros Hf. unfold getPidInfo, readFileSync.
  rewrite (existsSync_Some _ _ _ Hf), Hf. simpl.
  unfold field. by destruct v.
Qed.

(** C8, as the code has it: [getPidInfo] is a total function, so it never
    raises.  It answers absent exactly when the file is missing, when it
    does not parse, or when [pid] or [port] is not a number; otherwise it
    returns the stored pid and port with whatever [startedAt] and
    [version] the file holds, of any type or missing. *)
Theorem getPidInfo_absent_iff (w : World) :
  (getPidInfo P w = None <->
     files w !! PID_FILE P = None
     \/ (exists text, files w !! PID_FILE P = Some (Unparsable text))
     \/ (exists v, files w !! PID_FILE P = Some (Parsed v)
                   /\ (is_number (field v "pid") = false
                       \/ is_number (field v "port") = false)))
  /\ (forall info, getPidInfo P w = Some info ->
        exists v, files w !! PID_FILE P = Some (Parsed v)
                  /\ field v "pid" = Some (JNum (PidInfo.pid info))
                  /\ field v "port" = Some (JNum (PidInfo.port info))
                  /\ field v "startedAt" = PidInfo.startedAt info
                  /\ field v "version" = PidInfo.version info).
Proof.
  destruct (files w !! PID_FILE P) as [[text|v]|] eqn:Hf.
  - assert (getPidInfo P w = None) as ->.
    { unfold getPidInfo, readFileSync.
      by rewrite (existsSync_Some _ _ _ Hf), Hf. }
    split; [|discriminate]. split; eauto.
  - rewrite (getPidInfo_Parsed _ _ Hf).
    destruct (field v "pid") as [[| |pid| | |]|] eqn:Hpid;
      destruct (field v "port") as [[| |port| | |]|] eqn:Hport;
      try solve [split; [split; [intros _; right; right; exists v;
                                 rewrite Hpid, Hport; simpl; auto
                                |reflexivity]
                        |discriminate]].
    split.
    + split; [discriminate|].
      intros [?|[[? ?]|(v' & Hv' & Hbad)]]; try discriminate.
      assert (v' = v) by congruence. subst v'.
      rewrite Hpid, Hport in Hbad. simpl in Hbad. by destruct Hbad.
    + intros info [= <-]. exists v. simpl. auto.
  - assert (getPidInfo P w = None) as ->.
    { unfold getPidInfo. by rewrite (existsSync_None _ _ Hf). }
    split; [|discriminate]. split; eauto.
Qed.

Lemma removePidFile_absent w :
  files (removePidFile P w) !! PID_FILE P = None.
Proof.
  unfold removePidFile, existsSync. case_bool_decide as Hex.
  - apply files_unlinkSync.
  - by apply eq_None_not_Some.
Qed.

End StateStore.

(** ** Health prober *)

Lemma rounds_cover (timeout interval : Z) :
  0 < interval -> timeout <= interval * (Z.of_nat (rounds timeout interval) - 1).
Proof.
  intros Hpos. unfold rounds. rewrite Nat2Z.inj_succ.
  pose proof (Z.div_mod (timeout + interval - 1) interval ltac:(lia)) as Hdm.
  pose proof (Z.mod_pos_bound (timeout + interval - 1) interval Hpos) as Hm.
  destruct (Z.le_gt_cases 0 ((timeout + interval - 1) / interval)) as [Hq|Hq].
  - rewrite Z2Nat.id by assumption. lia.
  - replace (Z.to_nat ((timeout + interval - 1) / interval)) with O by lia. nia.
Qed.

Lemma populated_failure msg : populated (failure msg).
Proof. split; [discriminate|]. simpl. eauto. Qed.

Lemma populated_succeeded pid : populated (succeeded (Some pid)).
Proof. split; [|discriminate]. simpl. eauto. Qed.

(** A [return] of an object literal: the goal is about what was returned. *)
Ltac returned :=
  intros [= <- <-]; auto using populated_failure, populated_succeeded.

Section HealthProber.

Variable E : Env.
Variable P : Proc.

Local Abbreviation url := (readiness_url).

Lemma waitForHealth_loop_more_fuel fuel fuel' startTime pid port timeoutMs w x :
  waitForHealth_loop E P fuel startTime pid port timeoutMs w = Some x ->
  (fuel <= fuel')%nat ->
  waitForHealth_loop E P fuel' startTime pid port timeoutMs w = Some x.
Proof.
  revert fuel' w. induction fuel as [|fuel IH]; intros fuel' w; [discriminate|].
  destruct fuel' as [|fuel']; [lia|]. simpl. intros Hrun Hle.
  destruct (clock w - startTime <? adjustedTimeout P timeoutMs); [|exact Hrun].
  destruct (isProcessAlive pid w); simpl in *; [|exact Hrun].
  destruct (fetch E (url port) w) as [response w1].
  destruct (response_ok response); [exact Hrun|].
  apply IH; [exact Hrun|lia].
Qed.

(** Whatever the loop returns is one of its three results. *)
Lemma waitForHealth_loop_result fuel startTime pid port timeoutMs w r w' :
  waitForHealth_loop E P fuel startTime pid port timeoutMs w = Some (r, w') ->
  r = succeeded (Some pid)
  \/ r = failure (died_message P port)
  \/ r = failure (timeout_message P port (adjustedTimeout P timeoutMs)).
Proof.
  revert w. induction fuel as [|fuel IH]; intros w; [discriminate|]. simpl.
  destruct (clock w - startTime <? adjustedTimeout P timeoutMs);
    [|intros [= <- <-]; auto].
  destruct (isProcessAlive pid w); simpl; [|intros [= <- <-]; auto].
  destruct (fetch E (url port) w) as [response w1].
  destruct (response_ok response); [intros [= <- <-]; auto|apply IH].
Qed.

(** With a clock that moves, the loop comes to an end: each round takes
    at least the polling interval off what is left of the deadline.  A
    round that returns a success or a death began before the deadline; the
    timeout is returned once the deadline has passed. *)
Lemma waitForHealth_loop_returns fuel startTime pid port timeoutMs w :
  sleep_advances E -> fetch_keeps_time E ->
  (1 <= fuel)%nat ->
  adjustedTimeout P timeoutMs - (clock w - startTime)
    <= HEALTH_CHECK_INTERVAL_MS * (Z.of_nat fuel - 1) ->
  exists r w',
    waitForHealth_loop E P fuel startTime pid port timeoutMs w = Some (r, w')
    /\ ((r = succeeded (Some pid)
         /\ exists w0, clock w0 - startTime < adjustedTimeout P timeoutMs
                       /\ alive w0 pid = true
                       /\ response_ok (fst (fetch E (url port) w0)) = true
                       /\ w' = snd (fetch E (url port) w0))
        \/ (r = failure (died_message P port)
            /\ clock w' - startTime < adjustedTimeout P timeoutMs
            /\ alive w' pid = false)
        \/ (r = failure (timeout_message P port (adjustedTimeout P timeoutMs))
            /\ adjustedTimeout P timeoutMs <= clock w' - startTime)).
Proof.
  intros Hsleep Hfetch. revert w.
  induction fuel as [|fuel IH]; intros w Hfuel Hleft; [lia|]. simpl.
  destruct (Z.ltb_spec (clock w - startTime) (adjustedTimeout P timeoutMs))
    as [Hin|Hout]; [|eauto 10].
  unfold isProcessAlive. destruct (alive w pid) eqn:Halive; simpl; [|eauto 10].
  pose proof (Hfetch (url port) w) as Hf.
  destruct (fetch E (url port) w) as [response w1] eqn:Hresp; simpl in Hf.
  destruct (response_ok response) eqn:Hok.
  - exists (succeeded (Some pid)), w1. split; [reflexivity|]. left.
    split; [reflexivity|]. exists w. rewrite Hresp. auto.
  - pose proof (Hsleep HEALTH_CHECK_INTERVAL_MS w1) as Hs.
    unfold HEALTH_CHECK_INTERVAL_MS in *.
    apply IH; lia.
Qed.

Lemma poll_world_S k port w :
  poll_world E port (S k) w = poll_world E port k (next_poll E port w).
Proof. unfold poll_world. apply Nat.iter_succ_r. Qed.

(** Rounds that go round again are skipped over. *)
Lemma waitForHealth_loop_skip k fuel startTime pid port timeoutMs w :
  (forall j, (j < k)%nat ->
     still_starting E P startTime pid port timeoutMs (poll_world E port j w) = true) ->
  waitForHealth_loop E P (k + fuel) startTime pid port timeoutMs w
  = waitForHealth_loop E P fuel startTime pid port timeoutMs (poll_world E port k w).
Proof.
  revert w. induction k as [|k IH]; intros w Hwait; [reflexivity|].
  rewrite poll_world_S, <- IH.
  - pose proof (Hwait O ltac:(lia)) as H0. unfold still_starting in H0.
    apply andb_prop in H0 as [H0 Hresp]. apply andb_prop in H0 as [Hin Halive].
    apply negb_true_iff in Hresp.
    change (poll_world E port 0 w) with w in *.
    cbn [Nat.add waitForHealth_loop].
    rewrite Hin. unfold isProcessAlive. rewrite Halive. cbn [negb].
    unfold next_poll.
    destruct (fetch E (url port) w) as [response w1]. cbn [fst snd] in *.
    by rewrite Hresp.
  - intros j Hj. rewrite <- poll_world_S. apply Hwait. lia.
Qed.

(** C6, as the code has it: after any number of rounds in which the
    process was alive and the probe was refused, timed out or answered
    outside 2xx, a round begun before the deadline that finds the process
    dead returns at once the failure whose message is [died_message], a
    text fixed by the platform and the port; one that finds it alive and
    gets a 2xx answer returns success with the pid. *)
Theorem waitForHealth_outcomes (pid port timeoutMs : Z) (w : World) (k fuel : nat) :
  (k < fuel)%nat ->
  (forall j, (j < k)%nat ->
     still_starting E P (clock w) pid port timeoutMs (poll_world E port j w) = true) ->
  clock (poll_world E port k w) - clock w < adjustedTimeout P timeoutMs ->
  (alive (poll_world E port k w) pid = false ->
     waitForHealth E P fuel pid port timeoutMs w
     = Some (failure (died_message P port), poll_world E port k w))
  /\ (alive (poll_world E port k w) pid = true ->
      response_ok (fst (fetch E (url port) (poll_world E port k w))) = true ->
      waitForHealth E P fuel pid port timeoutMs w
      = Some (succeeded (Some pid), snd (fetch E (url port) (poll_world E port k w)))).
Proof.
  intros Hfuel Hwait Hin. unfold waitForHealth.
  replace fuel with (k + S (fuel - S k))%nat by lia.
  rewrite (waitForHealth_loop_skip _ _ _ _ _ _ _ Hwait).
  cbn [waitForHealth_loop].
  apply Z.ltb_lt in Hin. rewrite Hin. unfold isProcessAlive.
  split.
  - intros ->. reflexivity.
  - intros -> Hok. simpl.
    destruct (fetch E (url port) (poll_world E port k w)) as [response w1].
    simpl in *. by rewrite Hok.
Qed.



End HealthProber.

(** ** Supervisor API *)

Section SupervisorAPI.

Variable E : Env.
Variable P : Proc.

(** *** status and isRunning *)

Lemma status_reads_only w : snd (status E P w) = w.
Proof. unfold status. by destruct (getPidInfo P w). Qed.


Lemma status_dead w info :
  getPidInfo P w = Some info ->
  alive w (PidInfo.pid info) = false ->
  status E P w = (Status.mk false None None None, w).
Proof.
  intros Hinfo Hdead. unfold status, isProcessAlive. by rewrite Hinfo, Hdead.
Qed.

(** [isRunning] is where a stale state file is cleaned up. *)
Lemma isRunning_dead w info :
  getPidInfo P w = Some info ->
  alive w (PidInfo.pid info) = false ->
  isRunning P w = (false, removePidFile P w).
Proof.
  intros Hinfo Hdead. unfold isRunning, isProcessAlive. by rewrite Hinfo, Hdead.
Qed.

Lemma isRunning_true w w1 :
  isRunning P w = (true, w1) -> w1 = w /\ is_Some (getPidInfo P w).
Proof.
  unfold isRunning. destruct (getPidInfo P w) as [info|]; [|discriminate].
  destruct (isProcessAlive (PidInfo.pid info) w); [|discriminate].
  intros [= <-]. eauto.
Qed.

(** *** start *)

(** A result whose error is there when it is a failure, and whose pid is
    there when it is a success as long as [others] leave a readable state
    readable. *)
Local Abbreviation settled others r :=
  ((LaunchResult.success r = false -> is_Some (LaunchResult.error r))
   /\ (keeps_state_readable P others -> populated r)).

Lemma settled_of_populated others r : populated r -> settled others r.
Proof. intros Hr. split; [apply Hr|done]. Qed.

Lemma already_running_settled others w w0 :
  isRunning P w = (true, w0) -> settled others (already_running P (others w0)).
Proof.
  intros Hrun. apply isRunning_true in Hrun as [-> Hinfo].
  split; [discriminate|]. intros Hkeep.
  destruct (Hkeep _ Hinfo) as [info Hread].
  unfold already_running. rewrite Hread. apply populated_succeeded.
Qed.

Lemma waitForHealth_populated fuel pid port timeoutMs w r w' :
  waitForHealth E P fuel pid port timeoutMs w = Some (r, w') -> populated r.
Proof.
  intros Hrun. apply waitForHealth_loop_result in Hrun as [->|[->| ->]];
    auto using populated_succeeded, populated_failure.
Qed.

Lemma startWithBun_populated fuel script logFile port w r w' :
  startWithBun E P fuel script logFile port w = Some (r, w') -> populated r.
Proof.
  unfold startWithBun.
  destruct (getBunPath E) as [bunPath|]; [|returned].
  destruct (win32 P).
  - destruct (spawnSync E _ w) as [[message|result] w1]; [returned|].
    destruct (negb _); [returned|].
    destruct (parseInt _) as [pid|]; [apply waitForHealth_populated|returned].
  - destruct (spawn E bunPath script port w) as [[message|child_pid] w1];
      [returned|].
    destruct child_pid as [[|pid|pid]|];
      try returned; apply waitForHealth_populated.
Qed.

Lemma start_try_with_settled others fuel port w r w' :
  start_try_with E P others fuel port w = Some (r, w') -> settled others r.
Proof.
  unfold start_try_with. destruct (isRunning P w) as [[] w0] eqn:Hrun; cbv zeta.
  - intros [= <- <-]. by apply (already_running_settled others w).
  - destruct (negb _);
      [intros [= <- <-]; apply settled_of_populated, populated_failure|].
    destruct (startWithBun E P fuel _ _ port (others w0)) as [[result w2]|] eqn:Hbun;
      [|discriminate].
    intros [= <- <-]. apply settled_of_populated.
    by apply (startWithBun_populated _ _ _ _ _ _ _ Hbun).
Qed.

(** C5, as the code has it: whatever the other processes do while [start]
    is suspended, a failure it returns carries its error; a success it
    returns carries its pid as long as they leave a readable state file
    readable between the [isRunning] check and the re-read that follows
    it. *)
Theorem start_result_populated (others : World -> World) (fuel : nat) (port : Z)
    (w w' : World) (r : LaunchResult) :
  start_with E P others fuel port w = Some (r, w') ->
  (LaunchResult.success r = false -> is_Some (LaunchResult.error r))
  /\ (keeps_state_readable P others -> populated r).
Proof.
  unfold start_with.
  destruct ((port <? 1024) || (port >? 65535));
    [intros [= <- <-]; apply settled_of_populated, populated_failure|].
  destruct (isRunning P w) as [[] w0] eqn:Hrun1; cbv zeta.
  { intros [= <- <-]. by apply (already_running_settled others w). }
  destruct (acquireLockWithRetry E P (others w0)) as [[] w1]; cbn [negb].
  - destruct (start_try_with E P others fuel port (others w1))
      as [[result w3]|] eqn:Htry; [|discriminate].
    intros [= <- <-]. exact (start_try_with_settled _ _ _ _ _ _ Htry).
  - destruct (isRunning P (setTimeout E HEALTH_CHECK_TIMEOUT_MS (others w1)))
      as [[] w4] eqn:Hrun2; intros [= <- <-].
    + by apply (already_running_settled others
                  (setTimeout E HEALTH_CHECK_TIMEOUT_MS (others w1))).
    + apply settled_of_populated, populated_failure.
Qed.

(** [start] does return when the clock moves. *)
Lemma start_returns others fuel port w :
  sleep_advances E -> fetch_keeps_time E ->
  (rounds (adjustedTimeout P HEALTH_CHECK_TIMEOUT_MS) HEALTH_CHECK_INTERVAL_MS
   <= fuel)%nat ->
  is_Some (start_with E P others fuel port w).
Proof.
  intros Hsleep Hfetch Hfuel.
  assert (forall pid w, is_Some (waitForHealth E P fuel pid port
                                   HEALTH_CHECK_TIMEOUT_MS w)) as Hwait.
  { intros pid w0. unfold waitForHealth.
    destruct (waitForHealth_loop_returns E P fuel (clock w0) pid port
                HEALTH_CHECK_TIMEOUT_MS w0 Hsleep Hfetch) as (r & w' & -> & _);
      [unfold rounds in Hfuel; lia| |eauto].
    pose proof (rounds_cover (adjustedTimeout P HEALTH_CHECK_TIMEOUT_MS)
                  HEALTH_CHECK_INTERVAL_MS ltac:(reflexivity)).
    unfold HEALTH_CHECK_INTERVAL_MS in *. lia. }
  assert (forall script logFile w, is_Some (startWithBun E P fuel script logFile port w))
    as Hbun.
  { intros script logFile w0. unfold startWithBun.
    destruct (getBunPath E) as [bunPath|]; [|eauto].
    destruct (win32 P).
    - destruct (spawnSync E _ w0) as [[message|result] w1]; [eauto|].
      destruct (negb _); [eauto|]. destruct (parseInt _); eauto.
    - destruct (spawn E bunPath script port w0) as [[message|[[|pid|pid]|]] w1];
        eauto. }
  unfold start_with. destruct ((port <? 1024) || (port >? 65535)); [eauto|].
  destruct (isRunning P w) as [[] w0]; cbv zeta; [eauto|].
  destruct (acquireLockWithRetry E P (others w0)) as [[] w1]; cbn [negb].
  - assert (is_Some (start_try_with E P others fuel port (others w1)))
      as [[r w3] ->]; [|simpl; eauto].
    unfold start_try_with.
    destruct (isRunning P (others w1)) as [[] w3]; cbv zeta; [eauto|].
    destruct (negb _); [eauto|].
    destruct (Hbun (join (join (join (MARKETPLACE_ROOT P) "plugin") "scripts")
                      (if win32 P then "worker-wrapper.cjs" else "worker-service.cjs"))
                (getLogFilePath E P (others w3)) (others w3)) as [[r w4] ->].
    simpl. eauto.
  - destruct (isRunning P (setTimeout E HEALTH_CHECK_TIMEOUT_MS (others w1)))
      as [[] w4]; eauto.
Qed.

End SupervisorAPI.

(** *** stop *)

Section Stop.

Variable E : Env.
Variable P : Proc.

Lemma waitForExit_loop_returns fuel startTime pid timeout w :
  sleep_advances E ->
  (1 <= fuel)%nat ->
  timeout - (clock w - startTime)
    <= PROCESS_EXIT_CHECK_INTERVAL_MS * (Z.of_nat fuel - 1) ->
  is_Some (waitForExit_loop E fuel startTime pid timeout w).
Proof.
  intros Hsleep. revert w.
  induction fuel as [|fuel IH]; intros w Hfuel Hleft; [lia|]. simpl.
  destruct (Z.ltb_spec (clock w - startTime) timeout) as [Hin|Hout]; [|eauto].
  destruct (isProcessAlive pid w); simpl; [|eauto].
  pose proof (Hsleep PROCESS_EXIT_CHECK_INTERVAL_MS w) as Hs.
  unfold PROCESS_EXIT_CHECK_INTERVAL_MS in *.
  apply IH; lia.
Qed.

(** Whatever happens to the signals, a [stop] that returns has returned
    true, and has removed the state file if it found a WorkerState. *)
Lemma stop_result fuel timeout w r w' :
  stop E P fuel timeout w = Some (r, w') ->
  r = true
  /\ (getPidInfo P w = None -> w' = w)
  /\ (is_Some (getPidInfo P w) -> files w' !! PID_FILE P = None).
Proof.
  unfold stop. destruct (getPidInfo P w) as [info|].
  - assert (forall w0 : World,
               Some (true, removePidFile P w0) = Some (r, w') ->
               r = true /\ (Some info = None -> w' = w)
               /\ (is_Some (Some info) -> files w' !! PID_FILE P = None)) as Hend.
    { intros w0 [= <- <-]. split; [done|]. split; [done|].
      intros _. apply removePidFile_absent. }
    destruct (win32 P); [apply Hend|].
    destruct (kill E (PidInfo.pid info) SIGTERM w) as [[] w1]; [|apply Hend].
    destruct (waitForExit E fuel (PidInfo.pid info) timeout w1) as [[exited w2]|];
      [apply Hend|discriminate].
  - intros [= <- <-]. split; [done|]. split; [done|]. by intros [? ?].
Qed.

Lemma stop_returns fuel timeout w :
  sleep_advances E ->
  (rounds timeout PROCESS_EXIT_CHECK_INTERVAL_MS <= fuel)%nat ->
  is_Some (stop E P fuel timeout w).
Proof.
  intros Hsleep Hfuel. unfold stop.
  destruct (getPidInfo P w) as [info|]; [|eauto].
  destruct (win32 P); [simpl; eauto|].
  destruct (kill E (PidInfo.pid info) SIGTERM w) as [[] w1]; [|simpl; eauto].
  destruct (waitForExit_loop_returns fuel (clock w1) (PidInfo.pid info) timeout w1 Hsleep)
    as [[exited w2] Hexit].
  - unfold rounds in Hfuel. lia.
  - pose proof (rounds_cover timeout PROCESS_EXIT_CHECK_INTERVAL_MS ltac:(reflexivity)).
    unfold PROCESS_EXIT_CHECK_INTERVAL_MS in *. lia.
  - unfold waitForExit. rewrite Hexit. simpl. eauto.
Qed.

(** C7: with no WorkerState, [stop] returns true and leaves the world as
    it was; with one, [stop] returns with the state file gone, whatever
    the termination signals did. *)
Theorem stop_removes_state (fuel : nat) (timeout : Z) (w : World) :
  sleep_advances E ->
  (rounds timeout PROCESS_EXIT_CHECK_INTERVAL_MS <= fuel)%nat ->
  exists w',
    stop E P fuel timeout w = Some (true, w')
    /\ (getPidInfo P w = None -> w' = w)
    /\ (is_Some (getPidInfo P w) -> files w' !! PID_FILE P = None).
Proof.
  intros Hsleep Hfuel.
  destruct (stop_returns fuel timeout w Hsleep Hfuel) as [[r w'] Hstop].
  destruct (stop_result _ _ _ _ _ Hstop) as (-> & Hnone & Hsome).
  eauto.
Qed.

(** C10: [stop] returns, and what it returns is true: no path through it
    returns false or throws. *)
Theorem stop_always_true (fuel : nat) (timeout : Z) (w : World) :
  sleep_advances E ->
  (rounds timeout PROCESS_EXIT_CHECK_INTERVAL_MS <= fuel)%nat ->
  (exists w', stop E P fuel timeout w = Some (true, w'))
  /\ (forall fuel' r w', stop E P fuel' timeout w = Some (r, w') -> r = true).
Proof.
  intros Hsleep Hfuel. split.
  - destruct (stop_returns fuel timeout w Hsleep Hfuel) as [[r w'] Hstop].
    destruct (stop_result _ _ _ _ _ Hstop) as (-> & _). eauto.
  - intros fuel' r w' Hstop. by destruct (stop_result _ _ _ _ _ Hstop).
Qed.

End Stop.

(** ** The scenarios, run *)

Section Runs.

Import Scenario.

Lemma machine_sleep_advances ready_at : sleep_advances (machine ready_at).
Proof. intros ms w. simpl. lia. Qed.


(** C1 at a stale state: worker 999 is dead and its state file is there.
    [status] reports not-running and hands the world back as it was, state
    file included; [isRunning], asked the same question, removes it. *)
Theorem status_keeps_stale_state :
  alive stale 999 = false
  /\ status never_ready unix stale = (Status.mk false None None None, stale)
  /\ files (snd (status never_ready unix stale)) !! PID_FILE unix = Some (state_of 999)
  /\ files (snd (isRunning unix stale)) !! PID_FILE unix = None.
Proof. repeat split; vm_compute; reflexivity. Qed.

Lemma tryAcquireLock_twice_witness :
  fst (tryAcquireLock never_ready unix fresh) = true
  /\ tryAcquireLock never_ready unix just_locked = (false, just_locked).
Proof.
  apply (tryAcquireLock_twice never_ready unix fresh just_locked).
  - vm_compute; reflexivity.
  - vm_compute; reflexivity.
  - vm_compute; discriminate.
  - vm_compute; reflexivity.
Defined.

Lemma tryAcquireLock_reclaims_old_witness :
  alive old_lock 200 = true
  /\ process_pid unix <> 200
  /\ fst (tryAcquireLock never_ready unix old_lock) = true
  /\ files (snd (tryAcquireLock never_ready unix old_lock)) !! LOCK_FILE unix
     = Some (Parsed (lock_token unix 1000000)).
Proof.
  split; [vm_compute; reflexivity|]. split; [vm_compute; discriminate|].
  pose proof (tryAcquireLock_reclaims_old never_ready unix old_lock
                (JObj [("pid", JNum 200); ("timestamp", JNum (1000000 - 30001))])
                (1000000 - 30001)) as H.
  destruct H as (H1 & H2 & _).
  - vm_compute; reflexivity.
  - vm_compute; reflexivity.
  - vm_compute; reflexivity.
  - split; [exact H1|exact H2].
Defined.

Lemma releaseLock_only_by_owner_witness :
  releaseLock unix locked_by_other = locked_by_other
  /\ files (releaseLock unix locked_by_other) !! LOCK_FILE unix = Some held_by_other.
Proof.
  apply (releaseLock_only_by_owner unix locked_by_other held_by_other).
  - vm_compute; reflexivity.
  - vm_compute; discriminate.
Defined.

(** A launch on the fresh machine while the clock ticks on at every
    suspension: the worker is spawned as 4242, refuses two probes and
    answers the third. *)
Lemma start_result_populated_witness :
  exists w',
    start_with ready_soon unix (tick 1) 60 37777 fresh
    = Some (succeeded (Some 4242), w')
    /\ (LaunchResult.success (succeeded (Some 4242)) = false ->
        is_Some (LaunchResult.error (succeeded (Some 4242))))
    /\ populated (succeeded (Some 4242)).
Proof.
  assert (exists w', start_with ready_soon unix (tick 1) 60 37777 fresh
                     = Some (succeeded (Some 4242), w')) as [w' Hrun]
    by (eexists; vm_compute; reflexivity).
  exists w'. split; [exact Hrun|].
  destruct (start_result_populated ready_soon unix (tick 1) 60 37777 fresh w'
              (succeeded (Some 4242)) Hrun) as [Herror Hpid].
  split; [exact Herror|]. apply Hpid.
  intros w Hstate. exact Hstate.
Defined.

(** The claim of C5 fails on the already-running shortcut: worker 4242
    runs, and while [start] is suspended on [isRunning] another process
    removes the state file (the last step of its [stop]).  [start] reads
    the file again, finds nothing, and returns a success without a pid. *)
Lemma start_success_without_pid :
  isRunning unix running = (true, running)
  /\ start_with never_ready unix (unlinkSync (PID_FILE unix)) 0 37777 running
     = Some (succeeded None, unlinkSync (PID_FILE unix) running)
  /\ LaunchResult.success (succeeded None) = true
  /\ LaunchResult.pid (succeeded None) = None.
Proof. repeat split; vm_compute; reflexivity. Qed.

(** The claim of C6 on the message fails: worker 999 is dead at the first
    look, and the failure returned, "Process died during startup", does
    not name 999. *)
Lemma died_message_does_not_name_pid :
  alive fresh 999 = false
  /\ waitForHealth never_ready unix 51 999 37777 10000 fresh
     = Some (failure "Process died during startup", fresh)
  /\ names_pid 999 (failure "Process died during startup") = false.
Proof. repeat split; vm_compute; reflexivity. Qed.

(** Two refused probes, then a 200: success with the pid. *)
Lemma waitForHealth_outcomes_witness :
  fst (fetch ready_soon (readiness_url 37777) fresh) = Rejected
  /\ waitForHealth ready_soon unix 51 4242 37777 10000 fresh
     = Some (succeeded (Some 4242),
             snd (fetch ready_soon (readiness_url 37777)
                    (poll_world ready_soon 37777 2 fresh))).
Proof.
  split; [vm_compute; reflexivity|].
  apply (waitForHealth_outcomes ready_soon unix 4242 37777 10000 fresh 2 51).
  - lia.
  - intros [|[|j]] Hj; [vm_compute; reflexivity|vm_compute; reflexivity|lia].
  - vm_compute; reflexivity.
  - vm_compute; reflexivity.
  - vm_compute; reflexivity.
Defined.



(** Worker 4242 ignores SIGTERM for the whole 5 s; the state file is
    removed all the same. *)
Lemma stop_removes_state_witness :
  exists w',
    stop never_ready unix 51 5000 running = Some (true, w')
    /\ (getPidInfo unix running = None -> w' = running)
    /\ (is_Some (getPidInfo unix running) -> files w' !! PID_FILE unix = None).
Proof.
  apply (stop_removes_state never_ready unix 51 5000 running).
  - apply machine_sleep_advances.
  - vm_compute. lia.
Defined.

(** Worker 999 is already gone, so SIGTERM and SIGKILL both fail: true. *)
Lemma stop_always_true_witness :
  (exists w', stop never_ready unix 51 5000 stale = Some (true, w'))
  /\ (forall fuel' r w',
        stop never_ready unix fuel' 5000 stale = Some (r, w') -> r = true).
Proof.
  apply (stop_always_true never_ready unix 51 5000 stale).
  - apply machine_sleep_advances.
  - vm_compute. lia.
Defined.

(** The claim of C8 on the schema fails: a state file whose [startedAt]
    is a number and whose [version] is a boolean does not fit the schema
    of WorkerState, and is returned. *)
Lemma getPidInfo_accepts_mistyped :
  files mistyped !! PID_FILE unix
  = Some (Parsed (JObj [("pid", JNum 4242); ("port", JNum 37777);
                        ("startedAt", JNum 5); ("version", JBool true)]))
  /\ WorkerState_schema (JObj [("pid", JNum 4242); ("port", JNum 37777);
                              ("startedAt", JNum 5); ("version", JBool true)])
     = false
  /\ getPidInfo unix mistyped
     = Some (PidInfo.mk 4242 37777 (Some (JNum 5)) (Some (JBool true))).
Proof. repeat split; vm_compute; reflexivity. Qed.

End Runs.

(** * Further properties of the supervisor *)

(** ** Lock manager *)

Section LockManagerMore.

Variable E : Env.
Variable P : Proc.

Local Abbreviation lock := (LOCK_FILE P).

(** [cleanStaleLock] either leaves the world alone or removes the lock. *)
Lemma cleanStaleLock_cases w :
  cleanStaleLock E P w = w \/ cleanStaleLock E P w = unlinkSync lock w.
Proof.
  unfold cleanStaleLock. destruct (existsSync lock w); [|by left]. simpl.
  destruct (readFileSync lock w) as [c|]; [|by right]. simpl.
  destruct (JSON_parse c) as [lockInfo|]; [|by right]. simpl.
  destruct (member lockInfo "timestamp") as [timestamp|]; [|by right]. simpl.
  destruct (js_gt _ _); [by right|].
  destruct (member lockInfo "pid") as [owner|]; [|by right]. simpl.
  destruct (process_kill0 E owner w); auto.
Qed.

Lemma tryAcquireLock_removed w :
  cleanStaleLock E P w = unlinkSync lock w ->
  tryAcquireLock E P w
  = (true, writeFileSync lock (Parsed (lock_token P (clock w))) (unlinkSync lock w)).
Proof.
  intros Hclean. unfold tryAcquireLock. rewrite Hclean.
  by rewrite (existsSync_None _ _ (files_unlinkSync lock w)).
Qed.

(** X1: a [tryAcquireLock] that returns false has changed nothing and found
    a lock file in place; one that returns true leaves the lock file
    holding the caller's pid and the current time, and the clock, the
    process table and every other file as they were. *)
Theorem tryAcquireLock_result (w : World) :
  (fst (tryAcquireLock E P w) = false ->
     snd (tryAcquireLock E P w) = w /\ is_Some (files w !! lock))
  /\ (fst (tryAcquireLock E P w) = true ->
      files (snd (tryAcquireLock E P w)) !! lock
      = Some (Parsed (lock_token P (clock w)))
      /\ clock (snd (tryAcquireLock E P w)) = clock w
      /\ alive (snd (tryAcquireLock E P w)) = alive w
      /\ forall path, path <> lock ->
           files (snd (tryAcquireLock E P w)) !! path = files w !! path).
Proof.
  destruct (cleanStaleLock_cases w) as [Hkept|Hgone].
  - unfold tryAcquireLock. rewrite Hkept. unfold existsSync.
    case_bool_decide as Hlock; cbn [fst snd].
    + split; [auto|discriminate].
    + split; [discriminate|]. intros _. split; [apply files_writeFileSync|].
      repeat split. intros path Hpath. simpl. by apply lookup_insert_ne.
  - rewrite (tryAcquireLock_removed w Hgone). cbn [fst snd].
    split; [discriminate|]. intros _. split; [apply files_writeFileSync|].
    repeat split. intros path Hpath. simpl.
    rewrite lookup_insert_ne by done. by apply lookup_delete_ne.
Qed.

(** The owner is dead: the lock goes, whatever its timestamp. *)
Lemma cleanStaleLock_dead_owner w v owner :
  files w !! lock = Some (Parsed v) ->
  member v "pid" = Some (Some (JNum owner)) ->
  alive w owner = false ->
  cleanStaleLock E P w = unlinkSync lock w.
Proof.
  intros Hf Hpid Hdead. unfold cleanStaleLock, readFileSync.
  rewrite (existsSync_Some _ _ _ Hf), Hf. simpl.
  destruct (member v "timestamp") as [timestamp|]; [|reflexivity]. simpl.
  destruct (js_gt _ _); [reflexivity|].
  rewrite Hpid. simpl. by rewrite Hdead.
Qed.

(** X2: a lock whose recorded owner is a dead process is reclaimed at
    once, whatever its timestamp says: [tryAcquireLock] returns true and
    the lock file holds the caller's token. *)
Theorem tryAcquireLock_reclaims_dead (w : World) (v : json) (owner : Z) :
  files w !! lock = Some (Parsed v) ->
  member v "pid" = Some (Some (JNum owner)) ->
  alive w owner = false ->
  fst (tryAcquireLock E P w) = true
  /\ files (snd (tryAcquireLock E P w)) !! lock
     = Some (Parsed (lock_token P (clock w))).
Proof.
  intros Hf Hpid Hdead.
  rewrite (tryAcquireLock_removed w (cleanStaleLock_dead_owner w v owner Hf Hpid Hdead)).
  split; [reflexivity|apply files_writeFileSync].
Qed.

(** X3: a lock file that records no owner (it does not parse, it parses
    to [null] or to something without a [pid]) is removed and the lock
    taken. *)
Theorem tryAcquireLock_reclaims_corrupt (w : World) (c : content) :
  files w !! lock = Some c ->
  recorded_owner c = None ->
  fst (tryAcquireLock E P w) = true
  /\ files (snd (tryAcquireLock E P w)) !! lock
     = Some (Parsed (lock_token P (clock w))).
Proof.
  intros Hf Hown.
  assert (cleanStaleLock E P w = unlinkSync lock w) as Hgone.
  { unfold cleanStaleLock, readFileSync.
    rewrite (existsSync_Some _ _ _ Hf), Hf.
    destruct c as [text|v]; [reflexivity|]. simpl.
    unfold recorded_owner, field in Hown. simpl in Hown.
    destruct (member v "timestamp") as [timestamp|]; [|reflexivity]. simpl.
    destruct (js_gt _ _); [reflexivity|].
    destruct (member v "pid") as [owner|]; [|reflexivity].
    simpl in Hown. by subst owner. }
  rewrite (tryAcquireLock_removed w Hgone).
  split; [reflexivity|apply files_writeFileSync].
Qed.

(** X4: a lock file with an owner and no timestamp never goes stale by
    age: as long as the owner is alive the lock is kept, whatever the
    clock says, and [tryAcquireLock] fails. *)
Theorem undated_lock_never_stale (w : World) (v : json) (owner : Z) :
  files w !! lock = Some (Parsed v) ->
  member v "timestamp" = Some None ->
  member v "pid" = Some (Some (JNum owner)) ->
  alive w owner = true ->
  tryAcquireLock E P w = (false, w).
Proof.
  intros Hf Hts Hpid Halive.
  assert (cleanStaleLock E P w = w) as Hkept.
  { unfold cleanStaleLock, readFileSync.
    rewrite (existsSync_Some _ _ _ Hf), Hf. simpl. rewrite Hts. simpl.
    rewrite Hpid. simpl. by rewrite Halive. }
  unfold tryAcquireLock. rewrite Hkept.
  by rewrite (existsSync_Some _ _ _ Hf).
Qed.

Lemma releaseLock_own_token w now :
  files w !! lock = Some (Parsed (lock_token P now)) ->
  releaseLock P w = unlinkSync lock w.
Proof.
  intros Hf. unfold releaseLock, readFileSync. rewrite Hf. simpl.
  by rewrite Z.eqb_refl.
Qed.

(** X5: what [tryAcquireLock] takes, [releaseLock] gives back: after a
    successful acquire, release removes the lock file, and the lock can
    be taken again. *)
Theorem acquire_then_release (w : World) :
  fst (tryAcquireLock E P w) = true ->
  files (releaseLock P (snd (tryAcquireLock E P w))) !! lock = None
  /\ fst (tryAcquireLock E P (releaseLock P (snd (tryAcquireLock E P w)))) = true.
Proof.
  intros Hgot.
  assert (files (snd (tryAcquireLock E P w)) !! lock
          = Some (Parsed (lock_token P (clock w)))) as Htoken.
  { destruct (cleanStaleLock_cases w) as [Hkept|Hgone].
    - revert Hgot. unfold tryAcquireLock. rewrite Hkept.
      destruct (existsSync lock w); [discriminate|]. intros _.
      apply files_writeFileSync.
    - rewrite (tryAcquireLock_removed w Hgone). apply files_writeFileSync. }
  rewrite (releaseLock_own_token _ _ Htoken).
  split; [apply files_unlinkSync|].
  by rewrite (tryAcquireLock_free E P _ (files_unlinkSync lock _)).
Qed.

Lemma lock_wait_S k w :
  lock_wait E (S k) w = lock_wait E k (setTimeout E LOCK_RETRY_INTERVAL_MS w).
Proof. unfold lock_wait. apply Nat.iter_succ_r. Qed.

Lemma tryAcquireLock_false w :
  fst (tryAcquireLock E P w) = false -> tryAcquireLock E P w = (false, w).
Proof.
  destruct (cleanStaleLock_cases w) as [Hkept|Hgone].
  - unfold tryAcquireLock. rewrite Hkept.
    by destruct (existsSync lock w).
  - by rewrite (tryAcquireLock_removed w Hgone).
Qed.

Lemma acquireLockWithRetry_from_fails n w :
  (forall j, (j < n)%nat -> fst (tryAcquireLock E P (lock_wait E j w)) = false) ->
  acquireLockWithRetry_from E P n w = (false, lock_wait E n w).
Proof.
  revert w. induction n as [|n IH]; intros w Hfail; [reflexivity|].
  cbn [acquireLockWithRetry_from].
  rewrite (tryAcquireLock_false w (Hfail O ltac:(lia))).
  rewrite lock_wait_S. apply IH.
  intros j Hj. rewrite <- lock_wait_S. apply Hfail. lia.
Qed.

Lemma acquireLockWithRetry_from_succeeds n k w :
  (k < n)%nat ->
  (forall j, (j < k)%nat -> fst (tryAcquireLock E P (lock_wait E j w)) = false) ->
  fst (tryAcquireLock E P (lock_wait E k w)) = true ->
  acquireLockWithRetry_from E P n w
  = (true, snd (tryAcquireLock E P (lock_wait E k w))).
Proof.
  revert n w. induction k as [|k IH]; intros n w Hk Hfail Hgot.
  - destruct n as [|n]; [lia|]. cbn [acquireLockWithRetry_from].
    change (lock_wait E 0 w) with w in *.
    destruct (tryAcquireLock E P w) as [acquired w1]. simpl in Hgot.
    by subst acquired.
  - destruct n as [|n]; [lia|]. cbn [acquireLockWithRetry_from].
    rewrite (tryAcquireLock_false w (Hfail O ltac:(lia))).
    rewrite lock_wait_S. apply IH; [lia| |by rewrite <- lock_wait_S].
    intros j Hj. rewrite <- lock_wait_S. apply Hfail. lia.
Qed.

(** X6: [acquireLockWithRetry] tries at most fifty times, a 100 ms wait
    after each failure.  If the first [k] tries fail it has only waited
    [k] times; it returns true with the world of the first try that
    succeeds, and false after the fiftieth failure and the wait that
    follows it. *)
Theorem acquireLockWithRetry_outcomes (w : World) (k : nat) :
  (k <= LOCK_MAX_RETRIES)%nat ->
  (forall j, (j < k)%nat -> fst (tryAcquireLock E P (lock_wait E j w)) = false) ->
  (k = LOCK_MAX_RETRIES ->
     acquireLockWithRetry E P w = (false, lock_wait E LOCK_MAX_RETRIES w))
  /\ (fst (tryAcquireLock E P (lock_wait E k w)) = true ->
      (k < LOCK_MAX_RETRIES)%nat ->
      acquireLockWithRetry E P w
      = (true, snd (tryAcquireLock E P (lock_wait E k w)))).
Proof.
  intros Hk Hfail. unfold acquireLockWithRetry. split.
  - intros ->. by apply acquireLockWithRetry_from_fails.
  - intros Hgot Hlt. by apply acquireLockWithRetry_from_succeeds.
Qed.

End LockManagerMore.

(** ** State store and queries *)

Lemma append_cancel_l (a x y : string) : a +:+ x = a +:+ y -> x = y.
Proof. induction a as [|c a IH]; simpl; [done|]. intros [= H]. auto. Qed.

Lemma PID_FILE_not_LOCK_FILE (P : Proc) : PID_FILE P <> LOCK_FILE P.
Proof.
  unfold PID_FILE, LOCK_FILE, join. intros H.
  apply append_cancel_l in H. discriminate.
Qed.

Section StateStoreMore.

Variable E : Env.
Variable P : Proc.

Local Abbreviation state := (PID_FILE P).

(** [getPidInfo] looks at the state file and at nothing else. *)
Lemma getPidInfo_ext w w' :
  files w' !! state = files w !! state -> getPidInfo P w' = getPidInfo P w.
Proof.
  intros Hsame. unfold getPidInfo, existsSync, readFileSync. by rewrite Hsame.
Qed.

Lemma getPidInfo_written info w' :
  files w' !! state = Some (JSON_stringify (PidInfo_to_json info)) ->
  getPidInfo P w' = Some info.
Proof.
  intros Hf. rewrite (getPidInfo_Parsed P w' _ Hf).
  destruct info as [pid port startedAt version].
  by destruct startedAt, version.
Qed.

(** X7: the state store reads back what it wrote: after
    [writePidFile info], [getPidInfo] returns [info], whatever was in the
    file before. *)
Theorem getPidInfo_writePidFile (info : PidInfo) (w : World) :
  getPidInfo P (writePidFile P info w) = Some info.
Proof.
  apply getPidInfo_written. unfold writePidFile.
  apply files_writeFileSync.
Qed.

Lemma getPidInfo_removePidFile w : getPidInfo P (removePidFile P w) = None.
Proof.
  unfold getPidInfo. by rewrite (existsSync_None _ _ (removePidFile_absent P w)).
Qed.

(** X8: [isRunning] settles the state in one call.  When it answers true
    it has changed nothing; when it answers false no WorkerState can be
    read any more; and asked again at once it gives the same answer and
    changes nothing. *)
Theorem isRunning_settles (w : World) :
  (fst (isRunning P w) = true -> snd (isRunning P w) = w)
  /\ (fst (isRunning P w) = false -> getPidInfo P (snd (isRunning P w)) = None)
  /\ isRunning P (snd (isRunning P w)) = (fst (isRunning P w), snd (isRunning P w)).
Proof.
  unfold isRunning. destruct (getPidInfo P w) as [info|] eqn:Hinfo; cbn [fst snd].
  - unfold isProcessAlive.
    destruct (alive w (PidInfo.pid info)) eqn:Halive; cbn [negb fst snd].
    + split; [done|]. split; [discriminate|]. by rewrite Hinfo, Halive.
    + split; [discriminate|]. rewrite getPidInfo_removePidFile. done.
  - split; [discriminate|]. by rewrite Hinfo.
Qed.

(** X9: [status] and [isRunning] agree on whether the worker runs, and
    [status] gives a pid, a port and an uptime exactly when it does. *)
Theorem status_agrees_with_isRunning (w : World) :
  Status.running (fst (status E P w)) = fst (isRunning P w)
  /\ (Status.running (fst (status E P w)) = true ->
      is_Some (Status.pid (fst (status E P w)))
      /\ is_Some (Status.port (fst (status E P w)))
      /\ is_Some (Status.uptime (fst (status E P w))))
  /\ (Status.running (fst (status E P w)) = false ->
      fst (status E P w) = Status.mk false None None None).
Proof.
  unfold status, isRunning. destruct (getPidInfo P w) as [info|]; cbn [fst].
  - destruct (isProcessAlive (PidInfo.pid info) w);
      cbn [Status.running Status.pid Status.port Status.uptime].
    + split; [reflexivity|]. split; [|discriminate].
      intros _. repeat split; eexists; reflexivity.
    + split; [reflexivity|]. split; [discriminate|reflexivity].
  - cbn [Status.running]. split; [reflexivity|]. split; [discriminate|reflexivity].
Qed.

(** X10: once [stop] has returned, [status] and [isRunning] report that
    nothing runs and leave the world alone, whether or not the worker
    process is gone. *)
Theorem stop_then_not_running (fuel : nat) (timeout : Z) (w w' : World) (r : bool) :
  stop E P fuel timeout w = Some (r, w') ->
  status E P w' = (Status.mk false None None None, w')
  /\ isRunning P w' = (false, w').
Proof.
  intros Hstop.
  assert (getPidInfo P w' = None) as Hnone.
  { destruct (stop_result E P _ _ _ _ _ Hstop) as (_ & Hsame & Hgone).
    destruct (getPidInfo P w) as [info|] eqn:Hinfo.
    - unfold getPidInfo. by rewrite (existsSync_None _ _ (Hgone ltac:(eauto))).
    - by rewrite (Hsame eq_refl). }
  unfold status, isRunning. by rewrite Hnone.
Qed.


(** X12: [restart] stops first and checks the port afterwards: with a
    port out of range the worker's state is removed all the same, and
    the result is the invalid-port failure. *)
Theorem restart_invalid_port (fuel : nat) (port : Z) (w w1 : World) (r : bool) :
  port < 1024 \/ port > 65535 ->
  stop E P fuel PROCESS_STOP_TIMEOUT_MS w = Some (r, w1) ->
  restart E P fuel port w = Some (failure (invalid_port_message port), w1)
  /\ (is_Some (getPidInfo P w) -> files w1 !! state = None).
Proof.
  intros Hport Hstop. unfold restart. rewrite Hstop. simpl.
  split.
  - unfold start, start_with.
    by replace ((port <? 1024) || (port >? 65535)) with true by lia.
  - by destruct (stop_result E P _ _ _ _ _ Hstop) as (_ & _ & Hgone).
Qed.

End StateStoreMore.

(** ** Uptime, escaping and the wait for exit *)

Section Helpers.

Variable E : Env.

Lemma gtb_0_true q : 0 < q -> (q >? 0) = true.
Proof. intros H. rewrite Z.gtb_ltb. by apply Z.ltb_lt. Qed.

Lemma gtb_0_false q : q <= 0 -> (q >? 0) = false.
Proof. intros H. rewrite Z.gtb_ltb. by apply Z.ltb_ge. Qed.

(** X13: [formatUptime] shows the two largest units of the time since
    [startedAt], the change of unit falling at one minute, one hour and
    one day; under a minute, and for a start time in the future, it shows
    whole seconds alone, negative in the latter case. *)
Theorem formatUptime_units (startedAt : value) (t : Z) (w : World) :
  Date_getTime E startedAt = Some t ->
  (clock w - t < 60000 ->
     formatUptime E startedAt w = pretty ((clock w - t) / 1000) +:+ "s")
  /\ (60000 <= clock w - t < 3600000 ->
      formatUptime E startedAt w
      = pretty ((clock w - t) / 60000) +:+ "m "
        +:+ pretty (((clock w - t) / 1000) mod 60) +:+ "s")
  /\ (3600000 <= clock w - t < 86400000 ->
      formatUptime E startedAt w
      = pretty ((clock w - t) / 3600000) +:+ "h "
        +:+ pretty (((clock w - t) / 60000) mod 60) +:+ "m")
  /\ (86400000 <= clock w - t ->
      formatUptime E startedAt w
      = pretty ((clock w - t) / 86400000) +:+ "d "
        +:+ pretty (((clock w - t) / 3600000) mod 24) +:+ "h").
Proof.
  intros Hstart. unfold formatUptime. rewrite Hstart. cbn [js_sub].
  set (d := clock w - t).
  assert (d / 1000 / 60 = d / 60000) as Hm by (by rewrite Z.div_div).
  assert (d / 1000 / 60 / 60 = d / 3600000) as Hh
    by (by rewrite Hm, Z.div_div).
  assert (d / 1000 / 60 / 60 / 24 = d / 86400000) as Hd
    by (by rewrite Hh, Z.div_div).
  cbv zeta. rewrite Hd, Hh, Hm.
  repeat split.
  - intros Hlt.
    rewrite (gtb_0_false (d / 86400000)) by (apply Z.lt_succ_r, Z.div_lt_upper_bound; lia).
    rewrite (gtb_0_false (d / 3600000)) by (apply Z.lt_succ_r, Z.div_lt_upper_bound; lia).
    rewrite (gtb_0_false (d / 60000)) by (apply Z.lt_succ_r, Z.div_lt_upper_bound; lia).
    reflexivity.
  - intros [Hge Hlt].
    rewrite (gtb_0_false (d / 86400000)) by (apply Z.lt_succ_r, Z.div_lt_upper_bound; lia).
    rewrite (gtb_0_false (d / 3600000)) by (apply Z.lt_succ_r, Z.div_lt_upper_bound; lia).
    rewrite (gtb_0_true (d / 60000)) by (apply Z.div_str_pos; lia).
    rewrite Z.rem_mod_nonneg by (try apply Z.div_pos; lia). reflexivity.
  - intros [Hge Hlt].
    rewrite (gtb_0_false (d / 86400000)) by (apply Z.lt_succ_r, Z.div_lt_upper_bound; lia).
    rewrite (gtb_0_true (d / 3600000)) by (apply Z.div_str_pos; lia).
    rewrite Z.rem_mod_nonneg by (try apply Z.div_pos; lia). reflexivity.
  - intros Hge.
    rewrite (gtb_0_true (d / 86400000)) by (apply Z.div_str_pos; lia).
    rewrite Z.rem_mod_nonneg by (try apply Z.div_pos; lia). reflexivity.
Qed.

(** X14: [escapePowerShellString] doubles every apostrophe (U+0027) and
    changes nothing else: in what it returns apostrophes come in pairs
    only, and with each pair put back to one the input is there again, so
    that two strings are never escaped to the same text. *)
Theorem undouble_escapePowerShellString (str : string) :
  undouble (escapePowerShellString str) = Some str.
Proof.
  induction str as [|c rest IH]; [reflexivity|].
  cbn [escapePowerShellString].
  destruct (Ascii.eqb_spec c "'") as [->|Hc].
  - cbn [undouble]. rewrite Ascii.eqb_refl, IH. reflexivity.
  - cbn [undouble]. apply Ascii.eqb_neq in Hc. rewrite Hc, IH. reflexivity.
Qed.

Lemma waitForExit_loop_outcomes fuel startTime pid timeout w :
  sleep_advances E ->
  (1 <= fuel)%nat ->
  timeout - (clock w - startTime)
    <= PROCESS_EXIT_CHECK_INTERVAL_MS * (Z.of_nat fuel - 1) ->
  exists exited w',
    waitForExit_loop E fuel startTime pid timeout w = Some (exited, w')
    /\ (exited = true -> alive w' pid = false /\ clock w' - startTime < timeout)
    /\ (exited = false -> timeout <= clock w' - startTime).
Proof.
  intros Hsleep. revert w.
  induction fuel as [|fuel IH]; intros w Hfuel Hleft; [lia|]. simpl.
  destruct (Z.ltb_spec (clock w - startTime) timeout) as [Hin|Hout].
  - unfold isProcessAlive. destruct (alive w pid) eqn:Halive; simpl.
    + pose proof (Hsleep PROCESS_EXIT_CHECK_INTERVAL_MS w) as Hs.
      unfold PROCESS_EXIT_CHECK_INTERVAL_MS in *.
      apply IH; lia.
    + exists true, w. split; [reflexivity|]. split; [auto|discriminate].
  - exists false, w. split; [reflexivity|]. split; [discriminate|auto].
Qed.

(** X15: with a clock that moves, [waitForExit] comes back within
    [rounds timeout 100] looks at the process: normally, having seen the
    process dead before the timeout, or with its timeout error once the
    timeout has passed.  With a timeout of zero or less it throws at
    once, without a look at the process. *)
Theorem waitForExit_outcomes (fuel : nat) (pid timeout : Z) (w : World) :
  sleep_advances E ->
  (rounds timeout PROCESS_EXIT_CHECK_INTERVAL_MS <= fuel)%nat ->
  (exists exited w',
     waitForExit E fuel pid timeout w = Some (exited, w')
     /\ (exited = true -> alive w' pid = false /\ clock w' - clock w < timeout)
     /\ (exited = false -> timeout <= clock w' - clock w))
  /\ (timeout <= 0 -> waitForExit E fuel pid timeout w = Some (false, w)).
Proof.
  intros Hsleep Hfuel. split.
  - unfold waitForExit. apply waitForExit_loop_outcomes; [done| |].
    + unfold rounds in Hfuel. lia.
    + pose proof (rounds_cover timeout PROCESS_EXIT_CHECK_INTERVAL_MS
                    ltac:(reflexivity)).
      unfold PROCESS_EXIT_CHECK_INTERVAL_MS in *. lia.
  - intros Hzero. unfold waitForExit.
    destruct fuel as [|fuel]; [unfold rounds in Hfuel; lia|].
    cbn [waitForExit_loop].
    by replace (clock w - clock w <? timeout) with false by lia.
Qed.

End Helpers.

(** ** A launch, end to end *)

Section Launch.

Variable E : Env.
Variable P : Proc.

Local Abbreviation state := (PID_FILE P).
Local Abbreviation lock := (LOCK_FILE P).

(** A result that, if it is a success, names a live worker whose state
    is on file. *)
Local Abbreviation worker_of r w :=
  (LaunchResult.success r = true ->
   exists info, getPidInfo P w = Some info
                /\ alive w (PidInfo.pid info) = true
                /\ LaunchResult.pid r = Some (PidInfo.pid info)).









Lemma isRunning_keeps_lock w :
  files (snd (isRunning P w)) !! lock = files w !! lock.
Proof.
  unfold isRunning. destruct (getPidInfo P w) as [info|]; [|done].
  destruct (isProcessAlive (PidInfo.pid info) w); [done|]. cbn [negb snd].
  unfold removePidFile. destruct (existsSync state w); [|done].
  simpl. apply lookup_delete_ne. apply PID_FILE_not_LOCK_FILE.
Qed.

Lemma waitForHealth_loop_keeps_lock fuel startTime pid port timeoutMs w r w' :
  leaves_lock_alone E P ->
  waitForHealth_loop E P fuel startTime pid port timeoutMs w = Some (r, w') ->
  files w' !! lock = files w !! lock.
Proof.
  intros (Hsleep & Hfetch & _). revert w.
  induction fuel as [|fuel IH]; intros w; [discriminate|]. simpl.
  destruct (clock w - startTime <? adjustedTimeout P timeoutMs);
    [|by intros [= <- <-]].
  destruct (isProcessAlive pid w); simpl; [|by intros [= <- <-]].
  pose proof (Hfetch (readiness_url port) w) as Hf.
  destruct (fetch E (readiness_url port) w) as [response w1]. simpl in Hf.
  destruct (response_ok response); [by intros [= <- <-]|].
  intros Hrun. rewrite (IH _ Hrun), Hsleep. exact Hf.
Qed.

Lemma launch_keeps_lock fuel pid port w r w' :
  leaves_lock_alone E P ->
  waitForHealth E P fuel pid port HEALTH_CHECK_TIMEOUT_MS
    (writePidFile P (new_PidInfo E P pid port w) w) = Some (r, w') ->
  files w' !! lock = files w !! lock.
Proof.
  intros Hquiet Hrun.
  rewrite (waitForHealth_loop_keeps_lock _ _ _ _ _ _ _ _ Hquiet Hrun).
  simpl. apply lookup_insert_ne. apply PID_FILE_not_LOCK_FILE.
Qed.

Lemma startWithBun_keeps_lock fuel script logFile port w r w' :
  leaves_lock_alone E P ->
  startWithBun E P fuel script logFile port w = Some (r, w') ->
  files w' !! lock = files w !! lock.
Proof.
  intros Hquiet. pose proof Hquiet as (_ & _ & Hspawn & Hsync).
  unfold startWithBun.
  destruct (getBunPath E) as [bunPath|]; [|by intros [= <- <-]].
  destruct (win32 P).
  - pose proof (Hsync (psCommand P bunPath script port) w) as Hs.
    destruct (spawnSync E _ w) as [[message|result] w2]; simpl in Hs;
      [intros [= <- <-]; congruence|].
    destruct (negb _); [intros [= <- <-]; congruence|].
    destruct (parseInt _) as [pid|]; [|intros [= <- <-]; congruence].
    intros Hwait. rewrite (launch_keeps_lock _ _ _ _ _ _ Hquiet Hwait). congruence.
  - pose proof (Hspawn bunPath script port w) as Hs.
    destruct (spawn E bunPath _ port w) as [[message|child_pid] w2]; simpl in Hs;
      [intros [= <- <-]; congruence|].
    destruct child_pid as [[|pid|pid]|];
      try (intros [= <- <-]; congruence);
      intros Hwait; rewrite (launch_keeps_lock _ _ _ _ _ _ Hquiet Hwait); congruence.
Qed.

Lemma start_try_keeps_lock fuel port w r w' :
  leaves_lock_alone E P ->
  start_try E P fuel port w = Some (r, w') ->
  files w' !! lock = files w !! lock.
Proof.
  intros Hquiet. unfold start_try, start_try_with.
  pose proof (isRunning_keeps_lock w) as Hrun.
  destruct (isRunning P w) as [[] w1]; simpl in Hrun; cbv beta zeta;
    [by intros [= <- <-]|].
  destruct (negb _); [by intros [= <- <-]|].
  destruct (startWithBun E P fuel _ _ port w1) as [[result w2]|] eqn:Hbun;
    [|discriminate].
  intros [= <- <-].
  by rewrite (startWithBun_keeps_lock _ _ _ _ _ _ _ Hquiet Hbun).
Qed.

(** X17: [start] does not leave its lock behind: begun with no lock file
    and with nobody else writing one meanwhile, it returns with no lock
    file, whether the launch succeeded or failed. *)
Theorem start_releases_lock (fuel : nat) (port : Z) (w w' : World) (r : LaunchResult) :
  leaves_lock_alone E P ->
  files w !! lock = None ->
  start E P fuel port w = Some (r, w') ->
  files w' !! lock = None.
Proof.
  intros Hquiet Hfree. unfold start, start_with.
  destruct ((port <? 1024) || (port >? 65535)); [by intros [= <- <-]|].
  pose proof (isRunning_keeps_lock w) as Hrun.
  destruct (isRunning P w) as [[] w1]; simpl in Hrun; cbv beta zeta;
    [intros [= <- <-]; congruence|].
  assert (files w1 !! lock = None) as Hfree1 by congruence.
  unfold acquireLockWithRetry, LOCK_MAX_RETRIES.
  cbn [acquireLockWithRetry_from].
  rewrite (tryAcquireLock_free E P w1 Hfree1). cbn [negb].
  change (start_try_with E P (fun w => w) fuel port) with (start_try E P fuel port).
  destruct (start_try E P fuel port _) as [[result w3]|] eqn:Htry; [|discriminate].
  intros [= <- <-].
  apply (start_try_keeps_lock _ _ _ _ _ Hquiet) in Htry.
  rewrite files_writeFileSync in Htry.
  rewrite (releaseLock_own_token P _ _ Htry). apply files_unlinkSync.
Qed.

End Launch.

(** ** The cases, run *)

Section MoreRuns.

Import Scenario Cases.


Lemma machine_leaves_lock_alone ready_at P : leaves_lock_alone (machine ready_at) P.
Proof. by repeat split. Qed.

Lemma tryAcquireLock_reclaims_dead_witness :
  clock orphan_lock - 1000000 <= LOCK_STALE_TIMEOUT_MS
  /\ fst (tryAcquireLock never_ready unix orphan_lock) = true
  /\ files (snd (tryAcquireLock never_ready unix orphan_lock)) !! LOCK_FILE unix
     = Some (Parsed (lock_token unix (clock orphan_lock))).
Proof.
  split; [vm_compute; discriminate|].
  apply (tryAcquireLock_reclaims_dead never_ready unix orphan_lock
           (JObj [("pid", JNum 999); ("timestamp", JNum 1000000)]) 999).
  - vm_compute; reflexivity.
  - vm_compute; reflexivity.
  - vm_compute; reflexivity.
Defined.

Lemma tryAcquireLock_reclaims_corrupt_witness :
  fst (tryAcquireLock never_ready unix torn_lock) = true
  /\ files (snd (tryAcquireLock never_ready unix torn_lock)) !! LOCK_FILE unix
     = Some (Parsed (lock_token unix (clock torn_lock))).
Proof.
  apply (tryAcquireLock_reclaims_corrupt never_ready unix torn_lock (Unparsable "{")).
  - vm_compute; reflexivity.
  - vm_compute; reflexivity.
Defined.

(** Thirty years on, the undated lock of process 200 still holds. *)
Lemma undated_lock_never_stale_witness :
  tryAcquireLock never_ready unix (tick (10 ^ 12) undated_lock)
  = (false, tick (10 ^ 12) undated_lock).
Proof.
  apply (undated_lock_never_stale never_ready unix (tick (10 ^ 12) undated_lock)
           (JObj [("pid", JNum 200)]) 200).
  - vm_compute; reflexivity.
  - vm_compute; reflexivity.
  - vm_compute; reflexivity.
  - vm_compute; reflexivity.
Defined.

Lemma acquire_then_release_witness :
  files (releaseLock unix (snd (tryAcquireLock never_ready unix fresh))) !! LOCK_FILE unix
  = None
  /\ fst (tryAcquireLock never_ready unix
            (releaseLock unix (snd (tryAcquireLock never_ready unix fresh)))) = true.
Proof.
  apply (acquire_then_release never_ready unix fresh). vm_compute; reflexivity.
Defined.

(** Process 200 holds the lock and keeps it: fifty tries, 5 s, and the
    caller gives up. *)
Lemma acquireLockWithRetry_outcomes_witness :
  acquireLockWithRetry never_ready unix locked_by_other
  = (false, lock_wait never_ready LOCK_MAX_RETRIES locked_by_other)
  /\ clock (lock_wait never_ready LOCK_MAX_RETRIES locked_by_other)
     = clock locked_by_other + 5000.
Proof.
  split; [|vm_compute; reflexivity].
  apply (acquireLockWithRetry_outcomes never_ready unix locked_by_other 50).
  - vm_compute. lia.
  - intros j Hj.
    do 50 (destruct j as [|j]; [vm_compute; reflexivity|]). lia.
  - reflexivity.
Defined.

(** Worker 4242 survives [stop]; [status] says not running all the same. *)
Lemma stop_then_not_running_witness :
  alive after_stop 4242 = true
  /\ status never_ready unix after_stop = (Status.mk false None None None, after_stop)
  /\ isRunning unix after_stop = (false, after_stop).
Proof.
  split; [vm_compute; reflexivity|].
  apply (stop_then_not_running never_ready unix 51 5000 running after_stop true).
  vm_compute; reflexivity.
Defined.


Lemma restart_invalid_port_witness :
  restart never_ready unix 51 80 running
  = Some (failure (invalid_port_message 80), after_stop)
  /\ (is_Some (getPidInfo unix running) -> files after_stop !! PID_FILE unix = None).
Proof.
  apply (restart_invalid_port never_ready unix 51 80 running after_stop true).
  - lia.
  - vm_compute; reflexivity.
Defined.

Lemma formatUptime_units_witness :
  formatUptime never_ready (Some (JStr "1970-01-01T00:00:00.000Z")) long_running
  = "1d 1h".
Proof.
  rewrite (proj2 (proj2 (proj2 (formatUptime_units never_ready
             (Some (JStr "1970-01-01T00:00:00.000Z")) 0 long_running eq_refl)))).
  - vm_compute; reflexivity.
  - vm_compute; discriminate.
Defined.

Lemma waitForExit_outcomes_witness :
  (exists exited w',
     waitForExit never_ready 51 4242 5000 running = Some (exited, w')
     /\ (exited = true -> alive w' 4242 = false /\ clock w' - clock running < 5000)
     /\ (exited = false -> 5000 <= clock w' - clock running))
  /\ (5000 <= 0 -> waitForExit never_ready 51 4242 5000 running = Some (false, running)).
Proof.
  apply (waitForExit_outcomes never_ready 51 4242 5000 running).
  - apply machine_sleep_advances.
  - vm_compute. lia.
Defined.


Lemma start_releases_lock_witness :
  files just_locked_at_start !! LOCK_FILE unix
  = Some (Parsed (lock_token unix 1000000))
  /\ files launched !! LOCK_FILE unix = None.
Proof.
  split; [vm_compute; reflexivity|].
  apply (start_releases_lock ready_soon unix 60 37777 fresh launched
           (succeeded (Some 4242))).
  - apply machine_leaves_lock_alone.
  - vm_compute; reflexivity.
  - vm_compute; reflexivity.
Defined.

End MoreRuns.

(** ** Two processes, and launches that cannot begin *)

Lemma last_ascii_app (a x : string) :
  x <> EmptyString -> last_ascii (a +:+ x) = last_ascii x.
Proof.
  intros Hx. induction a as [|c a IH]; [reflexivity|].
  simpl. rewrite IH. destruct (a +:+ x) eqn:Hax; [|reflexivity].
  destruct a; [destruct (Hx Hax)|discriminate].
Qed.

Lemma worker_script_not_LOCK_FILE (P : Proc) : worker_script P <> LOCK_FILE P.
Proof.
  intros H. apply (f_equal last_ascii) in H. revert H.
  unfold worker_script, LOCK_FILE, join.
  rewrite !last_ascii_app by discriminate.
  rewrite (last_ascii_app (DATA_DIR P)) by discriminate.
  destruct (win32 P); vm_compute; discriminate.
Qed.

Lemma unlinkSync_writeFileSync path c w :
  files w !! path = None -> unlinkSync path (writeFileSync path c w) = w.
Proof.
  intros Hnone. destruct w as [now fs live]. unfold unlinkSync, writeFileSync.
  simpl in *. by rewrite delete_insert_id.
Qed.

(** X18: a lock taken by one process keeps every other process on the
    same data directory out: while the token is in place, not older than
    the stale threshold, and its owner alive, the other's
    [tryAcquireLock] returns false and changes nothing, and its
    [releaseLock] changes nothing either. *)
Theorem lock_excludes_other_process (E : Env) (P Q : Proc) (w w2 : World) :
  DATA_DIR Q = DATA_DIR P ->
  process_pid Q <> process_pid P ->
  files w !! LOCK_FILE P = None ->
  files w2 !! LOCK_FILE P = files (snd (tryAcquireLock E P w)) !! LOCK_FILE P ->
  clock w2 - clock w <= LOCK_STALE_TIMEOUT_MS ->
  alive w2 (process_pid P) = true ->
  tryAcquireLock E Q w2 = (false, w2) /\ releaseLock Q w2 = w2.
Proof.
  intros Hdir Hpid Hfree Hsame Hfresh Halive.
  rewrite (tryAcquireLock_free E P _ Hfree) in Hsame. cbn [snd] in Hsame.
  rewrite files_writeFileSync in Hsame.
  assert (LOCK_FILE Q = LOCK_FILE P) as Hlock
    by (unfold LOCK_FILE; by rewrite Hdir).
  rewrite <- Hlock in Hsame. split.
  - unfold tryAcquireLock.
    rewrite (cleanStaleLock_valid E Q w2 (lock_token P (clock w)) (clock w)
               (process_pid P) Hsame); try reflexivity; try assumption.
    by rewrite (existsSync_Some _ _ _ Hsame).
  - unfold releaseLock, readFileSync. rewrite Hsame. simpl.
    by replace (process_pid P =? process_pid Q) with false by lia.
Qed.

(** X19: a launch that cannot begin writes no file.  With no worker on
    record, no lock file and a port in range, [start] fails when the
    worker script is missing, and fails with the Bun message when the
    script is there and Bun is not; either way no state file is written
    and the lock it took is given back, so that the files, the clock and
    the process table are as they were.  (The directories the call makes
    sure of are not in the model.) *)
Theorem start_fails_cleanly (E : Env) (P : Proc) (fuel : nat) (port : Z) (w : World) :
  1024 <= port <= 65535 ->
  getPidInfo P w = None ->
  files w !! LOCK_FILE P = None ->
  (files w !! worker_script P = None ->
     exists message, start E P fuel port w = Some (failure message, w))
  /\ (is_Some (files w !! worker_script P) ->
      getBunPath E = None ->
      start E P fuel port w = Some (failure bun_missing_message, w)).
Proof.
  intros Hport Hnone Hfree.
  set (w2 := writeFileSync (LOCK_FILE P) (Parsed (lock_token P (clock w))) w).
  assert (getPidInfo P w2 = None) as Hnone2.
  { rewrite <- Hnone. apply getPidInfo_ext. simpl.
    apply lookup_insert_ne. intros H. by apply (PID_FILE_not_LOCK_FILE P). }
  assert (files w2 !! worker_script P = files w !! worker_script P) as Hscript.
  { simpl. apply lookup_insert_ne. intros H.
    by apply (worker_script_not_LOCK_FILE P). }
  assert (releaseLock P w2 = w) as Hrelease.
  { rewrite (releaseLock_own_token P w2 (clock w)) by apply files_writeFileSync.
    by apply unlinkSync_writeFileSync. }
  assert (start E P fuel port w
          = '(result, w3) ← start_try E P fuel port w2; Some (result, releaseLock P w3))
    as ->.
  { unfold start, start_with.
    replace ((port <? 1024) || (port >? 65535)) with false by lia.
    unfold isRunning. rewrite Hnone. cbv beta iota zeta.
    unfold acquireLockWithRetry, LOCK_MAX_RETRIES.
    cbn [acquireLockWithRetry_from].
    by rewrite (tryAcquireLock_free E P w Hfree). }
  unfold start_try, start_try_with, isRunning. rewrite Hnone2.
  cbv beta iota zeta. fold (worker_script P).
  split.
  - intros Hmissing.
    rewrite (existsSync_None (worker_script P) w2) by congruence.
    simpl. rewrite Hrelease. eauto.
  - intros [script Hthere] Hbun.
    rewrite (existsSync_Some (worker_script P) w2 script) by congruence.
    unfold startWithBun. rewrite Hbun. simpl. by rewrite Hrelease.
Qed.

Section LastRuns.

Import Scenario Cases.

Lemma lock_excludes_other_process_witness :
  tryAcquireLock never_ready second just_locked = (false, just_locked)
  /\ releaseLock second just_locked = just_locked.
Proof.
  apply (lock_excludes_other_process never_ready unix second fresh just_locked).
  - reflexivity.
  - vm_compute; discriminate.
  - vm_compute; reflexivity.
  - vm_compute; reflexivity.
  - vm_compute; discriminate.
  - vm_compute; reflexivity.
Defined.

Lemma start_fails_cleanly_witness :
  (exists message, start never_ready unix 0 37777 bare = Some (failure message, bare))
  /\ start no_bun unix 0 37777 fresh = Some (failure bun_missing_message, fresh).
Proof.
  split.
  - apply (proj1 (start_fails_cleanly never_ready unix 0 37777 bare
                    ltac:(lia) eq_refl eq_refl)).
    vm_compute; reflexivity.
  - apply (proj2 (start_fails_cleanly no_bun unix 0 37777 fresh
                    ltac:(lia) eq_refl eq_refl)).
    + vm_compute. eauto.
    + reflexivity.
Defined.

End LastRuns.
